(** * beanbot: the member-data synchronisation pipeline of [cogs/member_sync.py]

    A shallow embedding of the [MemberSync] cog: the role catalog
    ([get_all_roles]), the member record extraction ([get_member_data]), the
    projection to a grid and the sheet write ([clear_sheet],
    [write_member_data]) and the command body ([sync_members]).

    Conventions of the embedding.
    - A Python [str] is a [string]; its bytes are the UTF-8 encoding, whose
      bytewise lexicographic order is the code-point order Python compares
      with.
    - A Python [dict] with string keys is a [gmap string value]; only lookups
      are made on the dicts of this module, so insertion order is immaterial.
    - Exceptions are values of [exn]; a function that may raise returns a
      [result], and code that also acts on the guild cache, the spreadsheet or
      the chat channel is a state transformer over [World].
    - [print] calls write to the process log only and are left out. *)

From stdpp Require Import gmap strings list sorting pretty.
From Stdlib Require Import ZArith.

Local Open Scope Z_scope.

(** ** Values held by dicts and sheet cells *)

Inductive value :=
  | VStr (s : string)
  | VInt (z : Z)
  | VBool (b : bool).

Global Instance value_eq_dec : EqDecision value.
Proof. solve_decision. Defined.

(** Python truthiness, as used by [if x] and [x or y]. *)
Definition truthy (v : value) : bool :=
  match v with
  | VStr s => bool_decide (s ≠ "")
  | VInt z => bool_decide (z ≠ 0)
  | VBool b => b
  end.

(** [sep.join(l)] *)
Fixpoint join (sep : string) (l : list string) : string :=
  match l with
  | [] => ""
  | [x] => x
  | x :: rest => x +:+ sep +:+ join sep rest
  end.

(** [sorted(l)] on a list of [str]: ascending in the order of [<=] on [str].
    Equal strings are indistinguishable, so the result does not depend on the
    sorting algorithm (see [sorted_unique]). *)
Definition sorted (l : list string) : list string := merge_sort String.le l.

(** ** Exceptions and results *)

Inductive exn :=
  | ValueError (msg : string)
  | KeyError (key : string)
  | HttpError (msg : string)
  | Exception (msg : string).

(** [str(e)] *)
Definition exn_str (e : exn) : string :=
  match e with
  | ValueError msg => msg
  | KeyError key => "'" +:+ key +:+ "'"
  | HttpError msg => msg
  | Exception msg => msg
  end.

Inductive result (A : Type) :=
  | Ok (a : A)
  | Err (e : exn).
Arguments Ok {A} a.
Arguments Err {A} e.

(** ** Time *)

(** A [datetime]: microseconds since the epoch (UTC wall clock for a naive
    one) and whether it carries a time zone. *)
Record datetime := { instant : Z; aware : bool }.

Definition MICROS_PER_DAY : Z := 86400 * 1000000.

(** [a - b]: a [timedelta] in microseconds, or [None] for the [TypeError]
    Python raises when exactly one operand is offset-naive. *)
Definition datetime_sub (a b : datetime) : option Z :=
  if bool_decide (aware a = aware b) then Some (instant a - instant b) else None.

(** [timedelta.days]: the normalised day count rounds towards minus infinity. *)
Definition days (delta : Z) : Z := delta `div` MICROS_PER_DAY.

(** Proleptic Gregorian date (year, month, day) of a day number counted from
    1970-01-01. *)
Definition civil_from_days (n : Z) : Z * Z * Z :=
  let z := n + 719468 in
  let era := z `div` 146097 in
  let doe := z - era * 146097 in
  let yoe := (doe - doe `div` 1460 + doe `div` 36524 - doe `div` 146096) `div` 365 in
  let doy := doe - (365 * yoe + yoe `div` 4 - yoe `div` 100) in
  let mp := (5 * doy + 2) `div` 153 in
  let d := doy - (153 * mp + 2) `div` 5 + 1 in
  let m := if bool_decide (mp < 10) then mp + 3 else mp - 9 in
  let y := yoe + era * 400 in
  (if bool_decide (m ≤ 2) then y + 1 else y, m, d).

(** Decimal digits of [n], zero-padded on the left to [width]. *)
Definition zpad (width : nat) (n : Z) : string :=
  let s := pretty (Z.to_N n) in
  String.string_of_list_ascii
    (replicate (width - String.length s) (Ascii.ascii_of_nat 48)) +:+ s.

(** [dt.strftime('%Y-%m-%d %H:%M:%S')] for years 1000 to 9999. *)
Definition strftime (dt : datetime) : string :=
  let secs := instant dt `div` 1000000 in
  let '(y, m, d) := civil_from_days (secs `div` 86400) in
  let sod := secs `mod` 86400 in
  zpad 4 y +:+ "-" +:+ zpad 2 m +:+ "-" +:+ zpad 2 d +:+ " " +:+
  zpad 2 (sod `div` 3600) +:+ ":" +:+ zpad 2 ((sod `mod` 3600) `div` 60) +:+ ":" +:+
  zpad 2 (sod `mod` 60).

(** ** The guild as the chat platform's client library presents it *)

Module Role.
Record t := { id : Z; name : string }.
End Role.

Module Status.
Inductive t := online | offline | idle | dnd | invisible.

Global Instance eq_dec : EqDecision t.
Proof. solve_decision. Defined.

(** [str(status)] *)
Definition to_str (s : t) : string :=
  match s with
  | online => "online"
  | offline => "offline"
  | idle => "idle"
  | dnd => "dnd"
  | invisible => "invisible"
  end.
End Status.

Module Member.
Record t := {
  to_str : string;            (* str(member) *)
  display_name : string;
  id : Z;
  discriminator : string;
  nick : option string;
  roles : list Role.t;
  top_role : Role.t;
  bot : bool;
  created_at : datetime;
  joined_at : option datetime;
  status : Status.t;
  avatar : option string      (* member.avatar.url when there is an avatar *)
}.
End Member.

Module Guild.
Record t := {
  name : string;
  chunked : bool;
  members : list Member.t;    (* the client-side member cache *)
  roles : list Role.t
}.
End Guild.

(** ** Role Catalog Builder: [get_all_roles] *)

(** The [for role in guild.roles] loop, [roles] being the list built so far. *)
Fixpoint get_all_roles_loop (guild_roles : list Role.t) (roles : list string)
    : list string :=
  match guild_roles with
  | [] => roles
  | role :: rest =>
      if bool_decide (Role.name role ≠ "@everyone")
      then get_all_roles_loop rest (roles ++ [Role.name role])
      else get_all_roles_loop rest roles
  end.

Definition get_all_roles (guild : Guild.t) : list string :=
  sorted (get_all_roles_loop (Guild.roles guild) []).

(** ** Member Record Extractor: the body of the member loop *)

(** The [for role_name in all_roles] loop filling [role_columns]. *)
Fixpoint role_columns_loop (all_roles member_roles : list string)
    (role_columns : gmap string value) : gmap string value :=
  match all_roles with
  | [] => role_columns
  | role_name :: rest =>
      role_columns_loop rest member_roles
        (<["role_" +:+ role_name :=
             VStr (if bool_decide (role_name ∈ member_roles) then "Yes" else "No")]>
           role_columns)
  end.

(** One pass of the loop body for a member that is not a bot: the dict
    [member_info] after [member_info.update(role_columns)]. [now_aware] is the
    reading of [datetime.now(timezone.utc)] made in this pass. *)
Definition member_info (now_aware : datetime) (all_roles : list string)
    (member : Member.t) : gmap string value :=
  let member_roles :=
    Role.name <$>
      filter (λ role, Role.name role ≠ "@everyone") (Member.roles member) in
  let highest_role :=
    if bool_decide (Role.name (Member.top_role member) ≠ "@everyone")
    then Role.name (Member.top_role member) else "Member" in
  let account_created := Member.created_at member in
  let account_age_days :=
    match datetime_sub now_aware account_created with
    | Some delta => days delta
    | None => 0                                   (* except TypeError *)
    end in
  let joined_at := Member.joined_at member in
  let server_age_days :=
    match joined_at with
    | Some joined =>
        match datetime_sub now_aware joined with
        | Some delta => days delta
        | None => 0                               (* except TypeError *)
        end
    | None => 0
    end in
  let role_columns := role_columns_loop all_roles member_roles ∅ in
  let member_info : gmap string value :=
    list_to_map [
      ("username", VStr (Member.to_str member));
      ("display_name", VStr (Member.display_name member));
      ("user_id", VStr (pretty (Member.id member)));
      ("discriminator", VStr (Member.discriminator member));
      ("nickname",
        VStr (match Member.nick member with
              | Some n => if bool_decide (n ≠ "") then n else ""
              | None => ""
              end));
      ("roles",
        VStr (if bool_decide (member_roles ≠ [])
              then join ", " member_roles else "None"));
      ("highest_role", VStr highest_role);
      ("account_created", VStr (strftime account_created));
      ("account_age_days", VInt account_age_days);
      ("joined_server",
        VStr (match joined_at with
              | Some joined => strftime joined
              | None => "Unknown"
              end));
      ("server_age_days", VInt server_age_days);
      ("status", VStr (Status.to_str (Member.status member)));
      ("is_online", VBool (bool_decide (Member.status member ≠ Status.offline)));
      ("avatar_url",
        VStr (match Member.avatar member with
              | Some url => url
              | None => "No Avatar"
              end));
      ("last_synced", VStr (strftime now_aware))
    ] in
  (* member_info.update(role_columns): the entries of role_columns win *)
  role_columns ∪ member_info.

(** ** The spreadsheet backend *)

(** A sheet of the destination spreadsheet: its cells are indexed by zero-based
    (row, column); an absent key is an empty cell. The grid has no size
    limit. *)
Record Sheet := {
  title : string;
  sheetId : Z;
  cells : gmap (nat * nat) value
}.

(** Ranges in A1 notation, as the cog writes them:
    [Columns s "A" "Z"] is [f"{s}!A:Z"], [Cell s "A" 1] is [f"{s}!A1"]. *)
Inductive a1_range :=
  | Columns (sheet_name first_column last_column : string)
  | Cell (sheet_name column : string) (row : nat).

(** Zero-based index of a column named by capital letters: A is 0, Z is 25,
    AA is 26. *)
Definition column_index (letters : string) : nat :=
  pred (foldl (λ acc c, (acc * 26 + (Ascii.nat_of_ascii c - 64))%nat) 0%nat
          (String.list_ascii_of_string letters)).

Inductive request :=
  | GetSpreadsheet
  | ClearValues (range : a1_range)
  | UpdateValues (range : a1_range) (rows : list (list value)).

(** ** What is shown in the channel *)

Record Embed := {
  embed_title : string;
  embed_color : Z;
  embed_timestamp : datetime;
  embed_fields : list (string * string * bool);   (* name, value, inline *)
  embed_footer : string
}.

Inductive content :=
  | Text (s : string)
  | Rich (e : Embed).

(** ** The world a command runs in *)

Record World := {
  guild : Guild.t;                        (* ctx.guild, the cached guild object *)
  gateway : result (list Member.t);       (* what a member chunk request answers *)
  clock : nat → Z;                        (* the n-th reading of the clock *)
  ticks : nat;                            (* clock readings made so far *)
  sheets : list Sheet;                    (* the destination spreadsheet *)
  requests : list request;                (* spreadsheet API calls made, oldest first *)
  channel : list content                  (* status shown, every send and edit in order *)
}.

Definition with_guild (g : Guild.t) (w : World) : World :=
  {| guild := g; gateway := gateway w; clock := clock w; ticks := ticks w;
     sheets := sheets w; requests := requests w; channel := channel w |}.

Definition with_ticks (n : nat) (w : World) : World :=
  {| guild := guild w; gateway := gateway w; clock := clock w; ticks := n;
     sheets := sheets w; requests := requests w; channel := channel w |}.

Definition with_sheets (shs : list Sheet) (w : World) : World :=
  {| guild := guild w; gateway := gateway w; clock := clock w; ticks := ticks w;
     sheets := shs; requests := requests w; channel := channel w |}.

Definition with_request (r : request) (w : World) : World :=
  {| guild := guild w; gateway := gateway w; clock := clock w; ticks := ticks w;
     sheets := sheets w; requests := requests w ++ [r]; channel := channel w |}.

Definition with_content (c : content) (w : World) : World :=
  {| guild := guild w; gateway := gateway w; clock := clock w; ticks := ticks w;
     sheets := sheets w; requests := requests w; channel := channel w ++ [c] |}.

(** Computations that may raise and that act on the world. *)
Definition Py (A : Type) : Type := World → result A * World.

Global Instance Py_ret : MRet Py := λ A a w, (Ok a, w).

Global Instance Py_bind : MBind Py := λ A B f c w,
  match c w with
  | (Ok a, w') => f a w'
  | (Err e, w') => (Err e, w')
  end.

Definition raise {A} (e : exn) : Py A := λ w, (Err e, w).

(** [try: body / except Exception as e: handler(e)] *)
Definition try_except {A} (body : Py A) (handler : exn → Py A) : Py A := λ w,
  match body w with
  | (Ok a, w') => (Ok a, w')
  | (Err e, w') => handler e w'
  end.

Definition lift_result {A} (r : result A) : Py A := λ w, (r, w).

(** [datetime.now(timezone.utc)] *)
Definition datetime_now : Py datetime := λ w,
  (Ok {| instant := clock w (ticks w); aware := true |}, with_ticks (S (ticks w)) w).

(** [await guild.chunk()]: asks the gateway for every member; on an answer
    the member cache holds the answered members and the guild is chunked. *)
Definition guild_chunk : Py unit := λ w,
  match gateway w with
  | Ok loaded =>
      (Ok (),
       with_guild {| Guild.name := Guild.name (guild w);
                     Guild.chunked := true;
                     Guild.members := loaded;
                     Guild.roles := Guild.roles (guild w) |} w)
  | Err e => (Err e, w)
  end.

(** ** Member Record Extractor: [get_member_data] *)

(** The [for member in guild.members] loop; [members_data] is the list built
    so far. *)
Fixpoint members_loop (all_roles : list string) (members : list Member.t)
    (members_data : list (gmap string value)) : Py (list (gmap string value)) :=
  match members with
  | [] => mret members_data
  | member :: rest =>
      if Member.bot member
      then members_loop all_roles rest members_data              (* continue *)
      else
        now_aware ← datetime_now;
        members_loop all_roles rest
          (members_data ++ [member_info now_aware all_roles member])
  end.

(** The guild is one shared object: every read sees its current state. *)
Definition read_guild : Py Guild.t := λ w, (Ok (guild w), w).

(** The [if not guild.chunked] block that opens [get_member_data]: a failed
    chunk request is logged and passed over. *)
Definition ensure_chunked : Py unit :=
  guild ← read_guild;
  if Guild.chunked guild then mret ()
  else try_except guild_chunk (λ _, mret ()).

(** The member counts that [get_member_data] computes are only printed. *)
Definition get_member_data : Py (list (gmap string value) * list string) :=
  ensure_chunked;;
  guild ← read_guild;
  let all_roles := get_all_roles guild in
  members_data ← members_loop all_roles (Guild.members guild) [];
  mret (members_data, all_roles).

(** ** Tabular Projector: the rows built by [write_member_data] *)

Global Instance result_ret : MRet result := λ A a, Ok a.

Global Instance result_bind : MBind result := λ A B f r,
  match r with
  | Ok a => f a
  | Err e => Err e
  end.

(** [d[key]] *)
Definition getitem (d : gmap string value) (key : string) : result value :=
  match d !! key with
  | Some v => Ok v
  | None => Err (KeyError key)
  end.

Definition base_headers : list string := [
  "Username"; "Display Name"; "User ID"; "Discriminator"; "Nickname";
  "Roles"; "Highest Role"; "Account Created"; "Account Age (Days)";
  "Joined Server"; "Server Age (Days)"; "Status"; "Is Online";
  "Avatar URL"; "Last Synced"
].

Definition base_row (member : gmap string value) : result (list value) :=
  username ← getitem member "username";
  display_name ← getitem member "display_name";
  user_id ← getitem member "user_id";
  discriminator ← getitem member "discriminator";
  nickname ← getitem member "nickname";
  roles ← getitem member "roles";
  highest_role ← getitem member "highest_role";
  account_created ← getitem member "account_created";
  account_age_days ← getitem member "account_age_days";
  joined_server ← getitem member "joined_server";
  server_age_days ← getitem member "server_age_days";
  status ← getitem member "status";
  is_online ← getitem member "is_online";
  avatar_url ← getitem member "avatar_url";
  last_synced ← getitem member "last_synced";
  mret [
    username; display_name; user_id; discriminator; nickname;
    roles; highest_role; account_created; account_age_days;
    joined_server; server_age_days; status;
    VStr (if truthy is_online then "Yes" else "No");
    avatar_url; last_synced
  ].

(** [[member.get(f"role_{role}", "No") for role in all_roles]] *)
Definition role_data (member : gmap string value) (all_roles : list string)
    : list value :=
  (λ role, default (VStr "No") (member !! ("role_" +:+ role))) <$> all_roles.

(** The [for member in members_data] loop; [data_rows] is the grid built so
    far. *)
Fixpoint rows_loop (all_roles : list string)
    (members_data : list (gmap string value)) (data_rows : list (list value))
    : result (list (list value)) :=
  match members_data with
  | [] => mret data_rows
  | member :: rest =>
      base ← base_row member;
      let row := base ++ role_data member all_roles in
      rows_loop all_roles rest (data_rows ++ [row])
  end.

(** Header row, then one row per member record. *)
Definition data_rows (members_data : list (gmap string value))
    (all_roles : list string) : result (list (list value)) :=
  let role_headers := (λ role, "Role: " +:+ role) <$> all_roles in
  let headers := VStr <$> (base_headers ++ role_headers) in
  rows_loop all_roles members_data [headers].

(** ** Sheet Writer: the spreadsheet API and [clear_sheet] *)

Definition range_sheet (r : a1_range) : string :=
  match r with
  | Columns sheet_name _ _ => sheet_name
  | Cell sheet_name _ _ => sheet_name
  end.

(** Whether the cell at (row, column) lies in the range. *)
Definition in_range (r : a1_range) (rc : nat * nat) : bool :=
  match r with
  | Columns _ first_column last_column =>
      bool_decide (column_index first_column ≤ rc.2 ≤ column_index last_column)%nat
  | Cell _ column row =>
      bool_decide (rc = (pred row, column_index column))
  end.

(** Top-left cell of the range. *)
Definition range_origin (r : a1_range) : nat * nat :=
  match r with
  | Columns _ first_column _ => (0%nat, column_index first_column)
  | Cell _ column row => (pred row, column_index column)
  end.

(** Empties the cells of the range and leaves every other cell as it is. *)
Definition clear_cells (r : a1_range) (cs : gmap (nat * nat) value)
    : gmap (nat * nat) value :=
  filter (λ kv, in_range r kv.1 = false) cs.

(** Writes the cells of one row from column [col] on. *)
Fixpoint write_row (row col : nat) (vs : list value)
    (cs : gmap (nat * nat) value) : gmap (nat * nat) value :=
  match vs with
  | [] => cs
  | v :: rest => write_row row (S col) rest (<[(row, col) := v]> cs)
  end.

(** Writes the rows of a grid from (row, col) on; cells outside the grid are
    left as they are. *)
Fixpoint write_rows (row col : nat) (grid : list (list value))
    (cs : gmap (nat * nat) value) : gmap (nat * nat) value :=
  match grid with
  | [] => cs
  | vs :: rest => write_rows (S row) col rest (write_row row col vs cs)
  end.

(** Applies [f] to the cells of the first sheet titled [sheet_name]. *)
Fixpoint alter_sheet (sheet_name : string)
    (f : gmap (nat * nat) value → gmap (nat * nat) value)
    (shs : list Sheet) : option (list Sheet) :=
  match shs with
  | [] => None
  | sh :: rest =>
      if bool_decide (title sh = sheet_name)
      then Some ({| title := title sh; sheetId := sheetId sh;
                    cells := f (cells sh) |} :: rest)
      else (sh ::.) <$> alter_sheet sheet_name f rest
  end.

(** [spreadsheets().get(spreadsheetId=...).execute()]: the sheets with their
    properties. *)
Definition spreadsheets_get : Py (list Sheet) := λ w,
  (Ok (sheets w), with_request GetSpreadsheet w).

(** [spreadsheets().values().clear(spreadsheetId=..., range=r).execute()] *)
Definition values_clear (r : a1_range) : Py unit := λ w,
  let w' := with_request (ClearValues r) w in
  match alter_sheet (range_sheet r) (clear_cells r) (sheets w) with
  | Some shs => (Ok (), with_sheets shs w')
  | None => (Err (HttpError "Unable to parse range"), w')
  end.

(** [spreadsheets().values().update(spreadsheetId=..., range=r,
    valueInputOption='RAW', body={'values': rows}).execute()]: the rows are
    stored verbatim from the top-left cell of the range on. *)
Definition values_update (r : a1_range) (rows : list (list value)) : Py unit := λ w,
  let w' := with_request (UpdateValues r rows) w in
  let '(row, col) := range_origin r in
  match alter_sheet (range_sheet r) (write_rows row col rows) (sheets w) with
  | Some shs => (Ok (), with_sheets shs w')
  | None => (Err (HttpError "Unable to parse range"), w')
  end.

(** The [for sheet in spreadsheet.get('sheets', [])] loop with its [break]. *)
Fixpoint find_sheet_id (sheet_name : string) (shs : list Sheet) : option Z :=
  match shs with
  | [] => None
  | sheet :: rest =>
      if bool_decide (title sheet = sheet_name)
      then Some (sheetId sheet)
      else find_sheet_id sheet_name rest
  end.

Definition clear_sheet (sheet_name : string) : Py unit :=
  try_except
    (spreadsheet ← spreadsheets_get;
     match find_sheet_id sheet_name spreadsheet with
     | None => raise (ValueError ("Sheet '" +:+ sheet_name +:+ "' not found"))
     | Some _ => values_clear (Columns sheet_name "A" "Z")
     end)
    (λ e, raise e).

(** ** The cog and [write_member_data] *)

Inductive service := SheetsV4.

Record Cog := {
  sheets_service : option service;
  google_sheet_id : option string
}.

Definition write_member_data (self : Cog)
    (members_data : list (gmap string value)) (all_roles : list string)
    (sheet_name : string) : Py nat :=
  match sheets_service self with
  | None => raise (Exception "Google Sheets service not available")
  | Some _ =>
      try_except
        (rows ← lift_result (data_rows members_data all_roles);
         clear_sheet sheet_name;;
         values_update (Cell sheet_name "A" 1) rows;;
         mret (length members_data))
        (λ e, raise e)
  end.

(** ** Sync Orchestrator: the body of the [syncmembers] command

    The permission check of the command decorator runs before the body and is
    not part of it; [author] is [ctx.author] as printed. *)

Definition send (c : content) : Py unit := λ w, (Ok (), with_content c w).

(** [status_msg.edit(...)]: the status shown is replaced by [c]. *)
Definition edit (c : content) : Py unit := λ w, (Ok (), with_content c w).

Definition sync_members (self : Cog) (author : string) (sheet_name : string)
    : Py unit :=
  match sheets_service self with
  | None => send (Text "Google Sheets service not available")
  | Some _ =>
  if bool_decide (default "" (google_sheet_id self) = "")
  then send (Text "Google Sheet ID not configured")
  else
    send (Text "Starting member synchronization...");;
    try_except
      (edit (Text "Collecting member data...");;
       '(members_data, all_roles) ← get_member_data;
       match members_data with
       | [] => edit (Text "No human members found to sync (only bots in server?)")
       | _ =>
         edit (Text ("Writing " +:+ pretty (length members_data) +:+
                     " members to " +:+ sheet_name +:+ " sheet..."));;
         member_count ← write_member_data self members_data all_roles sheet_name;
         now ← datetime_now;
         guild ← read_guild;
         edit (Rich {|
           embed_title := "Member Sync Complete";
           embed_color := 65280;
           embed_timestamp := now;
           embed_fields :=
             [("Members Synced", pretty member_count +:+ " members", true);
              ("Role Columns", pretty (length all_roles) +:+ " roles", true);
              ("Sheet", sheet_name, true);
              ("Server", Guild.name guild, true)] ++
             match all_roles with
             | [] => []
             | _ => [("Roles Found",
                      join ", " (take 5 all_roles) +:+
                        (if bool_decide (5 < length all_roles)%nat then "..." else ""),
                      false)]
             end;
           embed_footer := "Synced by " +:+ author |})
       end)
      (λ e, edit (Text ("Sync failed: " +:+ exn_str e)))
  end.

(** ** Vocabulary of the statements *)

(** The reading of the clock made [i] readings after those already made. *)
Definition reading (w : World) (i : nat) : datetime :=
  {| instant := clock w (ticks w + i); aware := true |}.

(** The "Yes"/"No" cell of a member for a catalog entry. *)
Definition yes_no (member : Member.t) (role_name : string) : value :=
  VStr (if bool_decide (role_name ∈ Role.name <$> Member.roles member)
        then "Yes" else "No").

(** The guild as [get_member_data] reads it, once the chunk request, if
    any, has been made. *)
Definition loaded_guild (w : World) : Guild.t := guild (ensure_chunked w).2.

(** The cells a grid occupies on an empty sheet. *)
Definition grid_cells (grid : list (list value)) : gmap (nat * nat) value :=
  write_rows 0 0 grid ∅.

(** The cells of the first sheet titled [sheet_name]. *)
Fixpoint sheet_cells (sheet_name : string) (shs : list Sheet)
    : option (gmap (nat * nat) value) :=
  match shs with
  | [] => None
  | sh :: rest =>
      if bool_decide (title sh = sheet_name) then Some (cells sh)
      else sheet_cells sheet_name rest
  end.

(** [shs'] has the sheets of [shs], with the same titles and ids, and differs
    from it at most in the cells of sheets titled [sheet_name]. *)
Definition only_cells_of (sheet_name : string) (shs shs' : list Sheet) : Prop :=
  Forall2 (λ sh sh', title sh' = title sh ∧ sheetId sh' = sheetId sh ∧
                     (title sh ≠ sheet_name → cells sh' = cells sh)) shs shs'.

(** What a run that only writes to the sheet named [sheet_name] may change:
    the guild, the gateway and the clock are as before. *)
Definition writes_only (sheet_name : string) (w w' : World) : Prop :=
  guild w' = guild w ∧ gateway w' = gateway w ∧
  only_cells_of sheet_name (sheets w) (sheets w').

(** What a sync may change: as [writes_only], but for the member cache, which
    may have been loaded. *)
Definition syncs_only (sheet_name : string) (w w' : World) : Prop :=
  (guild w' = guild w ∨ guild w' = loaded_guild w) ∧ gateway w' = gateway w ∧
  only_cells_of sheet_name (sheets w) (sheets w').

(** The computation [c] relates every world to the one it leaves. *)
Definition respects {A} (R : relation World) (c : Py A) : Prop :=
  ∀ w, R w (c w).2.

(** The keys [write_member_data] reads from every record, in the order of
    the columns. *)
Definition base_keys : list string := [
  "username"; "display_name"; "user_id"; "discriminator"; "nickname";
  "roles"; "highest_role"; "account_created"; "account_age_days";
  "joined_server"; "server_age_days"; "status"; "is_online";
  "avatar_url"; "last_synced"
].

(** ** The informational commands: [membercount], [debugmembers], [listroles]

    These commands only read the guild and answer in the channel. What they
    send is returned, in the order sent: a text, or an embed with the parts
    these commands set. The value of an embed field is shown as [str] prints
    it. *)

Record card := {
  card_title : string;
  card_description : option string;
  card_color : Z;
  card_timestamp : option datetime;
  card_fields : list (string * string * bool);   (* name, value, inline *)
  card_thumbnail : option string;                (* url, when there is one *)
  card_footer : option string
}.

Inductive message :=
  | Plain (s : string)
  | Card (c : card).

(** The newline character, ["\n"]. *)
Definition NL : string := String (Ascii.ascii_of_nat 10) "".

(** [list(range(0, stop, step))] for a positive [step]. *)
Definition py_range (stop step : nat) : list nat :=
  (λ k, k * step)%nat <$> seq 0 ((stop + step - 1) `div` step)%nat.

(** [l[i:j]] for [i ≤ j]. *)
Definition slice {A} (i j : nat) (l : list A) : list A :=
  take (j - i) (drop i l).

(** [[all_roles[i:i+10] for i in range(0, len(all_roles), 10)]] *)
Definition role_chunks (all_roles : list string) : list (list string) :=
  (λ i, slice i (i + 10) all_roles) <$> py_range (length all_roles) 10.

(** The field that [list_roles] adds for the chunk of index [i]. *)
Definition role_field (all_roles : list string) (i : nat) (chunk : list string)
    : string * string * bool :=
  let field_name :=
    "Roles " +:+ pretty (i * 10 + 1)%nat +:+ "-" +:+
    pretty (((i + 1) * 10) `min` length all_roles)%nat in
  let field_value := join NL ((λ role, "â€¢ " +:+ role) <$> chunk) in
  (field_name, field_value, true).

Definition list_roles : Py (list message) :=
  guild ← read_guild;
  let all_roles := get_all_roles guild in
  match all_roles with
  | [] => mret [Plain "No roles found in this server (excluding @everyone)"]
  | _ =>
    mret [Card {|
      card_title := "Server Roles for Sheet Columns";
      card_description :=
        Some ("Found " +:+ pretty (length all_roles) +:+
              " roles that will be created as individual columns:");
      card_color := 39423;
      card_timestamp := None;
      card_fields := imap (role_field all_roles) (role_chunks all_roles);
      card_thumbnail := None;
      card_footer :=
        Some "Each role will have its own column with 'Yes' or 'No' values" |}]
  end.

(** [icon] is [guild.icon.url] when the guild has an icon. *)
Definition member_count (icon : option string) : Py (list message) :=
  guild ← read_guild;
  notices ←
    (if Guild.chunked guild then mret []
     else
       try_except
         (guild_chunk;; mret [Plain "Fetching all members..."])
         (λ e, mret [Plain "Fetching all members...";
                     Plain ("Could not fetch all members: " +:+ exn_str e)]));
  guild ← read_guild;
  let total_members := length (Guild.members guild) in
  let online_members :=
    length (filter (λ m, Member.status m ≠ Status.offline ∧ Member.bot m = false)
              (Guild.members guild)) in
  let bot_count := length (filter (λ m, Member.bot m = true) (Guild.members guild)) in
  let human_members := (total_members - bot_count)%nat in
  now ← datetime_now;
  mret (notices ++ [Card {|
    card_title := "Server Member Statistics";
    card_description := None;
    card_color := 39423;
    card_timestamp := Some now;
    card_fields :=
      [("Total Members", pretty total_members, true);
       ("Human Members", pretty human_members, true);
       ("Online Now", pretty online_members, true);
       ("Bots", pretty bot_count, true);
       ("Guild Chunked", if Guild.chunked guild then "Yes" else "No", true)];
    card_thumbnail := icon;
    card_footer := None |}]).

(** The [for i, member in enumerate(guild.members[:10])] loop of
    [debug_members]. *)
Definition members_info (members : list Member.t) : list string :=
  imap (λ i member,
          pretty (i + 1)%nat +:+ ". " +:+ Member.to_str member +:+ " (" +:+
          (if Member.bot member then "Bot" else "Human") +:+ ") - " +:+
          Status.to_str (Member.status member))
    (take 10 members).

(** [members_intent] is [ctx.bot.intents.members]. *)
Definition debug_members (members_intent : bool) : Py (list message) :=
  guild ← read_guild;
  fetched ←
    (if Guild.chunked guild then mret (inl [])
     else
       try_except
         (guild_chunk;;
          mret (inl [Plain "Attempting to fetch all members...";
                     Plain "Successfully fetched all members"]))
         (λ e, mret (inr [Plain "Attempting to fetch all members...";
                          Plain ("Failed to fetch all members: " +:+ exn_str e)])));
  match fetched with
  | inr notices => mret notices                                   (* return *)
  | inl notices =>
    guild ← read_guild;
    let info_text := join NL (members_info (Guild.members guild)) in
    let info_text :=
      if bool_decide (10 < length (Guild.members guild))%nat
      then info_text +:+ NL +:+ "... and " +:+
           pretty (length (Guild.members guild) - 10)%nat +:+ " more members"
      else info_text in
    mret (notices ++ [Card {|
      card_title := "Member Debug Information";
      card_description := Some info_text;
      card_color := 16750848;
      card_timestamp := None;
      card_fields :=
        [("Total Members", pretty (length (Guild.members guild)), true);
         ("Guild Chunked", if Guild.chunked guild then "Yes" else "No", true);
         ("Bot Permissions",
          if members_intent then "Members Intent: Enabled"
          else "Members Intent: Disabled", true)];
      card_thumbnail := None;
      card_footer := None |}])
  end.

(** ** Sample inputs *)

Definition sample_role (id : Z) (name : string) : Role.t :=
  {| Role.id := id; Role.name := name |}.

Definition sample_member (name : string) (id : Z) (roles : list Role.t)
    (top_role : Role.t) (bot : bool) (joined_at : option datetime) : Member.t :=
  {| Member.to_str := name; Member.display_name := name; Member.id := id;
     Member.discriminator := "0"; Member.nick := None; Member.roles := roles;
     Member.top_role := top_role; Member.bot := bot;
     Member.created_at := {| instant := 1600000000000000; aware := true |};
     Member.joined_at := joined_at; Member.status := Status.online;
     Member.avatar := None |}.

Definition sample_guild (chunked : bool) (members : list Member.t)
    (roles : list Role.t) : Guild.t :=
  {| Guild.name := "Bean"; Guild.chunked := chunked;
     Guild.members := members; Guild.roles := roles |}.

Definition sample_world (g : Guild.t) (answer : result (list Member.t))
    (shs : list Sheet) : World :=
  {| guild := g; gateway := answer;
     clock := λ n, 1700000000000000 + Z.of_nat n; ticks := 0;
     sheets := shs; requests := []; channel := [] |}.

Definition sample_cog : Cog :=
  {| sheets_service := Some SheetsV4; google_sheet_id := Some "sheet-id" |}.

Definition everyone_role : Role.t := sample_role 1 "@everyone".

(** * Properties *)

(** ** The role catalog *)

Lemma get_all_roles_loop_filter (guild_roles : list Role.t) (roles : list string) :
  get_all_roles_loop guild_roles roles =
  roles ++ filter (λ n, n ≠ "@everyone") (Role.name <$> guild_roles).
Proof.
  revert roles. induction guild_roles as [|role rest IH]; intros roles; simpl.
  - by rewrite app_nil_r.
  - rewrite filter_cons. case_bool_decide as Hname.
    + case_decide; [|done]. by rewrite IH, <- app_assoc.
    + case_decide; [done|]. apply IH.
Qed.

Lemma get_all_roles_sorted_filter (guild : Guild.t) :
  get_all_roles guild =
  sorted (filter (λ n, n ≠ "@everyone") (Role.name <$> Guild.roles guild)).
Proof. unfold get_all_roles. by rewrite get_all_roles_loop_filter. Qed.

Lemma sorted_Permutation (l : list string) : sorted l ≡ₚ l.
Proof. apply merge_sort_Permutation. Qed.

Lemma sorted_StronglySorted (l : list string) : StronglySorted String.le (sorted l).
Proof. apply StronglySorted_merge_sort; apply _. Qed.

(** Any ascending arrangement of [l] is [sorted l]: the model of [sorted] does
    not depend on the sorting algorithm. *)
Lemma sorted_unique (l l' : list string) :
  StronglySorted String.le l' → l' ≡ₚ l → l' = sorted l.
Proof.
  intros Hs Hp. apply (StronglySorted_unique String.le); [done | |].
  - apply sorted_StronglySorted.
  - by rewrite Hp, sorted_Permutation.
Qed.

Lemma sorted_perm_eq (l l' : list string) : l ≡ₚ l' → sorted l = sorted l'.
Proof.
  intros Hp. apply sorted_unique; [apply sorted_StronglySorted|].
  by rewrite sorted_Permutation.
Qed.

Lemma get_all_roles_elem (guild : Guild.t) (n : string) :
  n ∈ get_all_roles guild ↔
  n ≠ "@everyone" ∧ ∃ role, role ∈ Guild.roles guild ∧ Role.name role = n.
Proof.
  rewrite get_all_roles_sorted_filter, sorted_Permutation.
  rewrite list_elem_of_filter, list_elem_of_fmap. split.
  - intros (Hne & role & -> & Hin). eauto.
  - intros (Hne & role & Hin & <-). eauto.
Qed.

(** When the names of the guild's roles are pairwise distinct, so are the
    entries of the catalog. *)
Lemma get_all_roles_NoDup (guild : Guild.t) :
  NoDup (Role.name <$> Guild.roles guild) → NoDup (get_all_roles guild).
Proof.
  intros Hnd. rewrite get_all_roles_sorted_filter, sorted_Permutation.
  by apply NoDup_filter.
Qed.

(** C3. For every role list, in any order, [get_all_roles] returns the display
    names of the roles other than the one named by the everyone marker
    ["@everyone"], in ascending string order; the marker never occurs in the
    result, permuting the role list does not change the result, and the
    result is empty when there is no other role. *)
Theorem get_all_roles_catalog (guild : Guild.t) :
  get_all_roles guild ≡ₚ
    filter (λ n, n ≠ "@everyone") (Role.name <$> Guild.roles guild) ∧
  StronglySorted String.le (get_all_roles guild) ∧
  ("@everyone" ∉ get_all_roles guild) ∧
  (∀ guild', Guild.roles guild' ≡ₚ Guild.roles guild →
     get_all_roles guild' = get_all_roles guild) ∧
  ((∀ role, role ∈ Guild.roles guild → Role.name role = "@everyone") →
     (get_all_roles guild = [])).
Proof.
  split_and!.
  - rewrite get_all_roles_sorted_filter. apply sorted_Permutation.
  - rewrite get_all_roles_sorted_filter. apply sorted_StronglySorted.
  - rewrite get_all_roles_elem. by intros [Hne _].
  - intros guild' Hp. rewrite !get_all_roles_sorted_filter.
    apply sorted_perm_eq. by rewrite Hp.
  - intros Hall. destruct (get_all_roles guild) as [|n l] eqn:Hcat; [done|].
    assert (n ∈ get_all_roles guild) as Hn by (rewrite Hcat; left).
    apply get_all_roles_elem in Hn as (Hne & role & Hin & Hname).
    specialize (Hall role Hin). congruence.
Qed.

(** C9. Two distinct roles that share the display name ["Admin"] both reach
    the catalog: its entries are not pairwise distinct. *)
Theorem get_all_roles_repeats_shared_name :
  let guild := {| Guild.name := "guild"; Guild.chunked := true;
                  Guild.members := [];
                  Guild.roles := [ {| Role.id := 1; Role.name := "Admin" |};
                                   {| Role.id := 2; Role.name := "Admin" |} ] |} in
  get_all_roles guild = ["Admin"; "Admin"] ∧ ¬ NoDup (get_all_roles guild).
Proof.
  assert (get_all_roles
    {| Guild.name := "guild"; Guild.chunked := true; Guild.members := [];
       Guild.roles := [ {| Role.id := 1; Role.name := "Admin" |};
                        {| Role.id := 2; Role.name := "Admin" |} ] |}
    = ["Admin"; "Admin"]) as Heq by (vm_compute; reflexivity).
  simpl. rewrite Heq. split; [done|].
  intros Hnd. apply NoDup_cons in Hnd as [Hnotin _]. apply Hnotin. left.
Qed.

(** ** The member record *)

Lemma role_key_inj (a b : string) : "role_" +:+ a = "role_" +:+ b → a = b.
Proof. apply (inj (String.app "role_")). Qed.

Lemma role_columns_loop_lookup (all_roles member_roles : list string)
    (role_columns : gmap string value) (role_name : string) :
  role_columns_loop all_roles member_roles role_columns !! ("role_" +:+ role_name) =
  if bool_decide (role_name ∈ all_roles)
  then Some (VStr (if bool_decide (role_name ∈ member_roles) then "Yes" else "No"))
  else role_columns !! ("role_" +:+ role_name).
Proof.
  revert role_columns.
  induction all_roles as [|r rest IH]; intros role_columns; simpl; [done|].
  rewrite IH. destruct (decide (role_name = r)) as [->|Hne].
  - rewrite lookup_insert_eq.
    rewrite (bool_decide_eq_true_2 (r ∈ r :: rest)) by left.
    by case_bool_decide.
  - rewrite lookup_insert_ne by (intros ?%role_key_inj; done).
    rewrite (bool_decide_ext (role_name ∈ r :: rest) (role_name ∈ rest)); [done|].
    rewrite elem_of_cons. tauto.
Qed.

Lemma role_columns_loop_lookup_other (all_roles member_roles : list string)
    (role_columns : gmap string value) (key : string) :
  (∀ role_name, key ≠ "role_" +:+ role_name) →
  role_columns_loop all_roles member_roles role_columns !! key = role_columns !! key.
Proof.
  intros Hkey. revert role_columns.
  induction all_roles as [|r rest IH]; intros role_columns; simpl; [done|].
  rewrite IH. by rewrite lookup_insert_ne.
Qed.

Lemma base_key_not_role_key (key role_name : string) :
  key ∈ ["username"; "display_name"; "user_id"; "discriminator"; "nickname";
         "roles"; "highest_role"; "account_created"; "account_age_days";
         "joined_server"; "server_age_days"; "status"; "is_online";
         "avatar_url"; "last_synced"] →
  key ≠ "role_" +:+ role_name.
Proof.
  rewrite !elem_of_cons, elem_of_nil. unfold String.app.
  intros Hkey; repeat destruct Hkey as [->|Hkey]; try done; discriminate.
Qed.

(** Reads a base key of the dict built by [member_info]: the role columns
    merged by [update] cannot hold it, and the dict literal binds it once. *)
Ltac member_info_lookup :=
  unfold member_info; cbv zeta;
  rewrite lookup_union_r
    by (rewrite role_columns_loop_lookup_other;
        [done | intros ?; apply base_key_not_role_key; set_solver]);
  cbn [list_to_map foldr fst snd];
  repeat (rewrite lookup_insert_ne by discriminate);
  rewrite lookup_insert_eq.

Lemma member_roles_elem (member : Member.t) (role_name : string) :
  role_name ≠ "@everyone" →
  role_name ∈ Role.name <$>
    filter (λ role, Role.name role ≠ "@everyone") (Member.roles member) ↔
  role_name ∈ Role.name <$> Member.roles member.
Proof.
  intros Hne. rewrite !list_elem_of_fmap. split.
  - intros (role & -> & Hin%list_elem_of_filter). exists role. tauto.
  - intros (role & -> & Hin). exists role. split; [done|].
    apply list_elem_of_filter. done.
Qed.

Lemma member_info_role_lookup (now_aware : datetime) (all_roles : list string)
    (member : Member.t) (role_name : string) :
  role_name ∈ all_roles → role_name ≠ "@everyone" →
  member_info now_aware all_roles member !! ("role_" +:+ role_name) =
  Some (yes_no member role_name).
Proof.
  intros Hin Hne. unfold member_info; cbv zeta.
  apply lookup_union_Some_l. rewrite role_columns_loop_lookup.
  rewrite bool_decide_eq_true_2 by done. unfold yes_no. do 2 f_equal.
  by rewrite (bool_decide_ext _ _ (member_roles_elem member role_name Hne)).
Qed.

Lemma role_data_member_info (now_aware : datetime) (all_roles : list string)
    (member : Member.t) :
  "@everyone" ∉ all_roles →
  role_data (member_info now_aware all_roles member) all_roles =
  yes_no member <$> all_roles.
Proof.
  intros Hno. unfold role_data. apply list_fmap_ext. intros i role Hi.
  apply list_elem_of_lookup_2 in Hi.
  rewrite member_info_role_lookup; [done..|]. by intros ->.
Qed.

(** The base cells of a record built by [member_info] are always there: no
    [KeyError] arises when it is projected. *)
Lemma base_row_member_info (now_aware : datetime) (all_roles : list string)
    (member : Member.t) :
  ∃ base, base_row (member_info now_aware all_roles member) = Ok base ∧
          length base = 15%nat.
Proof.
  unfold base_row, getitem.
  repeat (match goal with
          | |- context [member_info ?n ?r ?m !! ?k] =>
              let H := fresh in
              eassert (member_info n r m !! k = Some _) as H
                by (member_info_lookup; reflexivity);
              rewrite H; clear H
          end; cbn [mbind result_bind]).
  eexists. split; reflexivity.
Qed.

Lemma rows_loop_app (all_roles : list string)
    (members_data : list (gmap string value)) (bases : list (list value))
    (rows : list (list value)) :
  Forall2 (λ member base, base_row member = Ok base) members_data bases →
  rows_loop all_roles members_data rows =
  Ok (rows ++ zip_with (λ member base, base ++ role_data member all_roles)
                members_data bases).
Proof.
  intros Hall. revert rows.
  induction Hall as [|member base members_data bases Hbase _ IH]; intros rows; simpl.
  - by rewrite app_nil_r.
  - rewrite Hbase. cbn [mbind result_bind]. rewrite IH, <- app_assoc. done.
Qed.

(** C4. The claim's instance, a top role literally named ["everyone"], does
    not yield ["Member"]: the name is kept. *)
Lemma highest_role_everyone_kept :
  let member :=
    sample_member "alice" 42 [everyone_role; sample_role 5 "everyone"]
      (sample_role 5 "everyone") false None in
  let record := member_info {| instant := 1700000000000000; aware := true |} [] member in
  record !! "highest_role" = Some (VStr "everyone") ∧
  record !! "highest_role" ≠ Some (VStr "Member").
Proof.
  cbv zeta.
  match goal with
  | |- ?lhs = _ ∧ _ =>
      assert (lhs = Some (VStr "everyone")) as Hkept
        by (member_info_lookup; reflexivity)
  end.
  rewrite Hkept. split; [done | discriminate].
Qed.

(** C4, amended. For every member a record is built for, the highest-role
    field is the name of the member's top role, except that when that name is
    ["@everyone"] the field is the literal ["Member"]. *)
Theorem member_info_highest_role (now_aware : datetime) (all_roles : list string)
    (member : Member.t) :
  member_info now_aware all_roles member !! "highest_role" =
  Some (VStr (if bool_decide (Role.name (Member.top_role member) = "@everyone")
              then "Member" else Role.name (Member.top_role member))).
Proof.
  member_info_lookup. do 2 f_equal.
  by repeat case_bool_decide.
Qed.



(** A naive join timestamp cannot be subtracted from the aware reading of the
    clock: the [TypeError] fallback gives a membership age of 0. *)
Lemma member_info_server_age_naive (t : Z) (all_roles : list string)
    (member : Member.t) (joined : datetime) :
  Member.joined_at member = Some joined → aware joined = false →
  member_info {| instant := t; aware := true |} all_roles member
    !! "server_age_days" = Some (VInt 0).
Proof.
  intros Hjoined Haware. member_info_lookup. rewrite Hjoined.
  unfold datetime_sub. cbn [aware instant]. rewrite Haware.
  by rewrite bool_decide_eq_false_2.
Qed.

(** The projection of records built by [member_info] against the catalog
    they were built with. *)
Lemma data_rows_member_info (all_roles : list string)
    (inputs : list (datetime * Member.t)) :
  "@everyone" ∉ all_roles →
  ∃ bases,
    Forall2 (λ _ base, length base = 15%nat) inputs bases ∧
    data_rows ((λ nm, member_info nm.1 all_roles nm.2) <$> inputs) all_roles =
    Ok ((VStr <$> (base_headers ++ ((λ role, "Role: " +:+ role) <$> all_roles)))
        :: zip_with (λ nm base, base ++ (yes_no nm.2 <$> all_roles)) inputs bases).
Proof.
  intros Hno.
  assert (∃ bases,
    Forall2 (λ _ base, length base = 15%nat) inputs bases ∧
    Forall2 (λ member base, base_row member = Ok base)
      ((λ nm, member_info nm.1 all_roles nm.2) <$> inputs) bases ∧
    zip_with (λ member base, base ++ role_data member all_roles)
      ((λ nm, member_info nm.1 all_roles nm.2) <$> inputs) bases =
    zip_with (λ nm base, base ++ (yes_no nm.2 <$> all_roles)) inputs bases)
    as (bases & Hlen & Hrows & Hzip).
  { induction inputs as [|[now_aware member] inputs (bases & Hlen & Hrows & Hzip)].
    - exists []. by repeat constructor.
    - destruct (base_row_member_info now_aware all_roles member) as (base & Hbase & Hb).
      exists (base :: bases). split_and!.
      + by constructor.
      + by constructor.
      + cbn [fmap list_fmap zip_with fst snd]. f_equal; [|done].
        by rewrite role_data_member_info. }
  exists bases. split; [done|].
  unfold data_rows. by rewrite (rows_loop_app _ _ bases), Hzip.
Qed.

(** C2. Every data row of the grid projected from member records carries,
    after fifteen base cells, one cell per catalog entry in catalog order, and
    that cell is "Yes" exactly when a role of the member bears that name,
    "No" otherwise. With the catalog ["Admin"; "Member"], a member whose only
    role is "Member" gets the role cells "No", "Yes". For any record at all,
    the cell of a catalog entry is the record's entry for it, and "No" when
    the record has none. *)
Theorem role_cells_yes_no (guild : Guild.t) (inputs : list (datetime * Member.t)) :
  let all_roles := get_all_roles guild in
  let cell (member : Member.t) (role_name : string) :=
    VStr (if bool_decide (role_name ∈ Role.name <$> Member.roles member)
          then "Yes" else "No") in
  (∃ grid,
     data_rows ((λ nm, member_info nm.1 all_roles nm.2) <$> inputs) all_roles
       = Ok grid ∧
     length grid = S (length inputs) ∧
     ∀ i nm, inputs !! i = Some nm →
       ∃ base, length base = 15%nat ∧
               grid !! S i = Some (base ++ (cell nm.2 <$> all_roles))) ∧
  (∀ now_aware member,
     Role.name <$> Member.roles member = ["Member"] →
     ∃ header base, length base = 15%nat ∧
       data_rows [member_info now_aware ["Admin"; "Member"] member]
         ["Admin"; "Member"] = Ok [header; base ++ [VStr "No"; VStr "Yes"]]) ∧
  (∀ (record : gmap string value) base catalog,
     base_row record = Ok base →
     ∃ header, data_rows [record] catalog =
       Ok [header;
           base ++ ((λ role_name,
                       match record !! ("role_" +:+ role_name) with
                       | Some entry => entry
                       | None => VStr "No"
                       end) <$> catalog)]).
Proof.
  cbv zeta. split_and!.
  - destruct (data_rows_member_info (get_all_roles guild) inputs)
      as (bases & Hlen & ->).
    { rewrite get_all_roles_elem. by intros [Hne _]. }
    eexists. split; [done|].
    pose proof (Forall2_length _ _ _ Hlen) as Hl. split.
    + cbn [length]. rewrite length_zip_with. lia.
    + intros i nm Hi.
      destruct (Forall2_lookup_l _ _ _ _ _ Hlen Hi) as (base & Hbase & Hb).
      exists base. split; [done|]. rewrite lookup_cons.
      rewrite lookup_zip_with, Hi. cbn. by rewrite Hbase.
  - intros now_aware member Hroles.
    destruct (data_rows_member_info ["Admin"; "Member"] [(now_aware, member)])
      as (bases & Hlen & Hrows).
    { rewrite !elem_of_cons, elem_of_nil. intros [|[|[]]]; discriminate. }
    apply Forall2_cons_inv_l in Hlen as (base & bases' & Hb & ->%Forall2_nil_inv_l & ->).
    eexists _, base. split; [done|].
    cbn [fmap list_fmap fst snd] in Hrows. rewrite Hrows. cbn [zip_with fst snd].
    unfold yes_no. rewrite Hroles. reflexivity.
  - intros record base catalog Hbase. eexists. unfold data_rows.
    rewrite (rows_loop_app _ [record] [base]) by (by repeat constructor).
    reflexivity.
Qed.

(** ** The member loop *)

Lemma with_ticks_same (w : World) : with_ticks (ticks w) w = w.
Proof. by destruct w. Qed.

Lemma with_guild_same (w : World) : with_guild (guild w) w = w.
Proof. by destruct w. Qed.

Lemma members_loop_run (all_roles : list string) (members : list Member.t)
    (members_data : list (gmap string value)) (w : World) :
  let humans := filter (λ m, Member.bot m = false) members in
  members_loop all_roles members members_data w =
  (Ok (members_data ++ imap (λ i m, member_info (reading w i) all_roles m) humans),
   with_ticks (ticks w + length humans) w).
Proof.
  cbv zeta. revert members_data w.
  induction members as [|member rest IH]; intros members_data w; simpl.
  - rewrite app_nil_r, Nat.add_0_r, with_ticks_same. done.
  - rewrite filter_cons. destruct (Member.bot member) eqn:Hbot.
    + rewrite decide_False by done. apply IH.
    + rewrite decide_True by done.
      unfold mbind, Py_bind, datetime_now. rewrite IH.
      rewrite <- app_assoc. cbn [imap app length]. f_equal.
      * do 3 f_equal.
        { unfold reading. by rewrite Nat.add_0_r. }
        apply imap_ext. intros i m _. unfold reading, compose. cbn.
        do 3 f_equal. lia.
      * unfold with_ticks. cbn. f_equal. lia.
Qed.

Lemma ensure_chunked_run (w : World) :
  ensure_chunked w = (Ok (), with_guild (loaded_guild w) w).
Proof.
  unfold loaded_guild, ensure_chunked, mbind, Py_bind, read_guild.
  destruct (Guild.chunked (guild w)).
  - unfold mret, Py_ret. cbn. by rewrite with_guild_same.
  - unfold try_except, guild_chunk. destruct (gateway w) as [loaded|e].
    + cbn. destruct w; reflexivity.
    + unfold mret, Py_ret. cbn. by rewrite with_guild_same.
Qed.

Lemma get_member_data_run (w : World) :
  let all_roles := get_all_roles (loaded_guild w) in
  let humans := filter (λ m, Member.bot m = false) (Guild.members (loaded_guild w)) in
  get_member_data w =
  (Ok (imap (λ i m, member_info (reading w i) all_roles m) humans, all_roles),
   with_ticks (ticks w + length humans) (with_guild (loaded_guild w) w)).
Proof.
  cbv zeta. unfold get_member_data.
  unfold mbind at 1. unfold Py_bind at 1. rewrite ensure_chunked_run.
  unfold mbind, Py_bind, read_guild. rewrite members_loop_run.
  reflexivity.
Qed.

(** C5. [get_member_data] always returns. The member list it works over is
    fixed by the state it is run in: the cached list of the guild, or, when
    the guild is not chunked and the gateway answers the chunk request, the
    answered list. Its records are those of the members of that list that are
    not bots, one each and in the order of the list, built against the
    catalog of the guild, so that their number is the length of the list
    minus its number of bots, and no record stems from a bot. *)
Theorem get_member_data_skips_bots (w : World) :
  let members :=
    if Guild.chunked (guild w) then Guild.members (guild w)
    else match gateway w with
         | Ok answered => answered
         | Err _ => Guild.members (guild w)
         end in
  ∃ members_data all_roles w',
    get_member_data w = (Ok (members_data, all_roles), w') ∧
    all_roles = get_all_roles (guild w) ∧
    Guild.members (guild w') = members ∧
    members_data =
      imap (λ i member, member_info (reading w i) all_roles member)
        (filter (λ m, Member.bot m = false) members) ∧
    length members_data =
      (length members - length (filter (λ m, Member.bot m = true) members))%nat ∧
    ∀ record, record ∈ members_data →
      ∃ member, member ∈ members ∧ Member.bot member = false ∧
                record !! "user_id" = Some (VStr (pretty (Member.id member))).
Proof.
  cbv zeta.
  assert (Guild.members (loaded_guild w) =
          (if Guild.chunked (guild w) then Guild.members (guild w)
           else match gateway w with
                | Ok answered => answered
                | Err _ => Guild.members (guild w)
                end) ∧
          get_all_roles (loaded_guild w) = get_all_roles (guild w))
    as [Hmembers Hroles].
  { unfold loaded_guild, ensure_chunked, mbind, Py_bind, read_guild.
    destruct (Guild.chunked (guild w)); [done|].
    unfold try_except, guild_chunk. by destruct (gateway w). }
  rewrite <- Hmembers.
  eexists _, _, _. split; [apply get_member_data_run|].
  cbn [guild with_ticks with_guild]. split_and!.
  - exact Hroles.
  - done.
  - done.
  - rewrite length_imap. clear Hmembers Hroles.
    induction (Guild.members (loaded_guild w)) as [|m ms IH]; [done|].
    rewrite !filter_cons. pose proof (length_filter (λ m, Member.bot m = true) ms).
    destruct (Member.bot m); simpl in *; lia.
  - intros record (i & Hi)%list_elem_of_lookup.
    apply list_lookup_imap_Some in Hi as (member & Hm & ->).
    apply list_elem_of_lookup_2, list_elem_of_filter in Hm as [Hbot Hin].
    exists member. split_and!; [done..|].
    member_info_lookup. reflexivity.
Qed.

(** Reads the fields of a world written with the [with_] updates. *)
Ltac world_simpl :=
  unfold with_content, with_ticks, with_guild, with_sheets, with_request;
  cbn [guild gateway clock ticks sheets requests channel].

(** ** The sheet writer *)

Lemma find_sheet_id_absent (sheet_name : string) (shs : list Sheet) :
  sheet_name ∉ title <$> shs → find_sheet_id sheet_name shs = None.
Proof.
  induction shs as [|sh rest IH]; [done|]. cbn [fmap list_fmap find_sheet_id].
  rewrite not_elem_of_cons. intros [Hne Hrest].
  rewrite bool_decide_eq_false_2 by done. by apply IH.
Qed.

Lemma clear_sheet_absent (sheet_name : string) (w : World) :
  sheet_name ∉ title <$> sheets w →
  clear_sheet sheet_name w =
  (Err (ValueError ("Sheet '" +:+ sheet_name +:+ "' not found")),
   with_request GetSpreadsheet w).
Proof.
  intros Habsent. unfold clear_sheet, try_except, mbind, Py_bind, spreadsheets_get.
  by rewrite (find_sheet_id_absent _ _ Habsent).
Qed.

(** C7. When no sheet of the destination spreadsheet bears the given name,
    the sheet writer raises the not-found error ([ValueError] "Sheet '...'
    not found") to its caller after the one lookup of the sheet titles: no
    clear and no update request is made, the lookup is not repeated and the
    sheets are as they were. *)
Theorem write_member_data_sheet_not_found (self : Cog) (svc : service)
    (members_data : list (gmap string value)) (all_roles : list string)
    (rows : list (list value)) (sheet_name : string) (w : World) :
  sheets_service self = Some svc →
  data_rows members_data all_roles = Ok rows →
  sheet_name ∉ title <$> sheets w →
  let not_found := ValueError ("Sheet '" +:+ sheet_name +:+ "' not found") in
  clear_sheet sheet_name w = (Err not_found, with_request GetSpreadsheet w) ∧
  ∃ w', write_member_data self members_data all_roles sheet_name w
          = (Err not_found, w') ∧
        sheets w' = sheets w ∧
        requests w' = requests w ++ [GetSpreadsheet] ∧
        guild w' = guild w ∧ channel w' = channel w.
Proof.
  intros Hsvc Hrows Habsent. cbv zeta. split; [by apply clear_sheet_absent|].
  exists (with_request GetSpreadsheet w). split; [|done].
  unfold write_member_data. rewrite Hsvc.
  unfold try_except, mbind, Py_bind, lift_result. rewrite Hrows.
  by rewrite (clear_sheet_absent _ _ Habsent).
Qed.

Lemma write_member_data_sheet_not_found_witness :
  let w := sample_world (sample_guild true [] [])
             (Err (Exception "no members intent"))
             [{| title := "Benji"; sheetId := 0; cells := ∅ |}] in
  ∃ w', write_member_data sample_cog [] [] "Roster" w
          = (Err (ValueError "Sheet 'Roster' not found"), w') ∧
        sheets w' = sheets w ∧
        requests w' = requests w ++ [GetSpreadsheet] ∧
        guild w' = guild w ∧ channel w' = channel w.
Proof.
  cbv zeta.
  refine (proj2 (write_member_data_sheet_not_found sample_cog SheetsV4 [] []
                   _ "Roster" _ _ _ _)).
  - reflexivity.
  - reflexivity.
  - cbn. rewrite !elem_of_cons, elem_of_nil. intros [|[]]. discriminate.
Defined.

(** ** The orchestrator *)

Lemma loaded_guild_unfold (w : World) :
  loaded_guild w =
  if Guild.chunked (guild w) then guild w
  else match gateway w with
       | Ok loaded =>
           {| Guild.name := Guild.name (guild w); Guild.chunked := true;
              Guild.members := loaded; Guild.roles := Guild.roles (guild w) |}
       | Err _ => guild w
       end.
Proof.
  unfold loaded_guild, ensure_chunked, mbind, Py_bind, read_guild.
  destruct (Guild.chunked (guild w)); [done|].
  unfold try_except, guild_chunk. by destruct (gateway w).
Qed.

Lemma filter_humans_nil (members : list Member.t) :
  (∀ m, m ∈ members → Member.bot m = true) →
  filter (λ m, Member.bot m = false) members = [].
Proof.
  intros Hbots. induction members as [|m rest IH]; [done|].
  rewrite filter_cons, decide_False.
  - apply IH. intros m' Hm'. apply Hbots. by right.
  - rewrite (Hbots m) by left. discriminate.
Qed.

(** C8. The claim's outcome is not that of every invocation: with the
    Sheets service unavailable, a guild of bots only is answered with the
    service notice, not with the nothing-to-sync status. *)
Lemma sync_members_service_unavailable :
  let bot := sample_member "helper" 7 [everyone_role] everyone_role true None in
  let w := sample_world (sample_guild true [bot] [everyone_role])
             (Err (Exception "no members intent"))
             [{| title := "Benji"; sheetId := 0; cells := ∅ |}] in
  let self := {| sheets_service := None; google_sheet_id := Some "sheet-id" |} in
  channel (sync_members self "admin" "Benji" w).2
    = [Text "Google Sheets service not available"] ∧
  last (channel (sync_members self "admin" "Benji" w).2)
    ≠ Some (Text "No human members found to sync (only bots in server?)").
Proof. cbv zeta. split; [reflexivity | discriminate]. Qed.

(** C8, amended. With the Sheets service available and a sheet id
    configured, a sync over a member list without any member that is not a bot
    ends normally on the status "No human members found to sync (only bots in
    server?)", which is neither the failure status nor the completion report:
    no record is collected, and no request reaches the spreadsheet. *)
Theorem sync_members_nothing_to_sync (self : Cog) (svc : service) (id : string)
    (author sheet_name : string) (w : World) :
  sheets_service self = Some svc →
  google_sheet_id self = Some id → id ≠ "" →
  (∀ m, m ∈ Guild.members (loaded_guild w) → Member.bot m = true) →
  ∃ all_roles w1 w',
    get_member_data w = (Ok ([], all_roles), w1) ∧
    sync_members self author sheet_name w = (Ok (), w') ∧
    channel w' = channel w ++
      [Text "Starting member synchronization...";
       Text "Collecting member data...";
       Text "No human members found to sync (only bots in server?)"] ∧
    sheets w' = sheets w ∧ requests w' = requests w.
Proof.
  intros Hsvc Hid Hne Hbots.
  pose proof (get_member_data_run w) as Hrun. cbv zeta in Hrun.
  rewrite (filter_humans_nil _ Hbots) in Hrun. cbn [imap length] in Hrun.
  eexists _, _, _. split; [exact Hrun|].
  unfold sync_members. rewrite Hsvc, Hid. cbn [default].
  rewrite bool_decide_eq_false_2 by done.
  unfold mbind at 1. unfold Py_bind at 1. cbn [send].
  unfold try_except. unfold mbind at 1. unfold Py_bind at 1. cbn [edit].
  unfold mbind at 1. unfold Py_bind at 1.
  pose proof (get_member_data_run (with_content (Text "Collecting member data...")
    (with_content (Text "Starting member synchronization...") w))) as Hrun'.
  cbv zeta in Hrun'.
  assert (loaded_guild (with_content (Text "Collecting member data...")
    (with_content (Text "Starting member synchronization...") w)) = loaded_guild w)
    as Hloaded.
  { by rewrite !loaded_guild_unfold. }
  rewrite Hloaded, (filter_humans_nil _ Hbots) in Hrun'. cbn [imap length] in Hrun'.
  rewrite Hrun'. split; [reflexivity|]. world_simpl.
  split; [|done]. by rewrite <- !app_assoc.
Qed.

Lemma sync_members_nothing_to_sync_witness :
  let bot := sample_member "helper" 7 [everyone_role] everyone_role true None in
  let w := sample_world (sample_guild true [bot] [everyone_role])
             (Err (Exception "no members intent"))
             [{| title := "Benji"; sheetId := 0; cells := ∅ |}] in
  ∃ all_roles w1 w',
    get_member_data w = (Ok ([], all_roles), w1) ∧
    sync_members sample_cog "admin" "Benji" w = (Ok (), w') ∧
    channel w' = channel w ++
      [Text "Starting member synchronization...";
       Text "Collecting member data...";
       Text "No human members found to sync (only bots in server?)"] ∧
    sheets w' = sheets w ∧ requests w' = requests w.
Proof.
  cbv zeta.
  apply (sync_members_nothing_to_sync sample_cog SheetsV4 "sheet-id").
  - reflexivity.
  - reflexivity.
  - discriminate.
  - rewrite loaded_guild_unfold. cbn.
    intros m ->%list_elem_of_singleton. reflexivity.
Defined.

(** ** What a sync leaves untouched *)

Section respects.
Context (R : relation World) `{!PreOrder R}.

Lemma respects_ret {A} (a : A) : respects R (mret a).
Proof. intros w. reflexivity. Qed.

Lemma respects_raise {A} (e : exn) : respects R (raise e : Py A).
Proof. intros w. reflexivity. Qed.

Lemma respects_lift_result {A} (r : result A) : respects R (lift_result r).
Proof. intros w. reflexivity. Qed.

Lemma respects_bind {A B} (c : Py A) (f : A → Py B) :
  respects R c → (∀ a, respects R (f a)) → respects R (c ≫= f).
Proof.
  intros Hc Hf w. unfold mbind, Py_bind. specialize (Hc w).
  destruct (c w) as [[a|e] w1]; cbn in *; [|done].
  etrans; [done|]. apply Hf.
Qed.

Lemma respects_try_except {A} (c : Py A) (handler : exn → Py A) :
  respects R c → (∀ e, respects R (handler e)) → respects R (try_except c handler).
Proof.
  intros Hc Hh w. unfold try_except. specialize (Hc w).
  destruct (c w) as [[a|e] w1]; cbn in *; [done|].
  etrans; [done|]. apply Hh.
Qed.
End respects.

Lemma only_cells_of_refl (sheet_name : string) (shs : list Sheet) :
  only_cells_of sheet_name shs shs.
Proof. apply Forall_Forall2_diag, Forall_forall. done. Qed.

Lemma only_cells_of_trans (sheet_name : string) (shs1 shs2 shs3 : list Sheet) :
  only_cells_of sheet_name shs1 shs2 → only_cells_of sheet_name shs2 shs3 →
  only_cells_of sheet_name shs1 shs3.
Proof.
  unfold only_cells_of. intros H12 H23.
  eapply Forall2_trans; [|done..].
  intros sh1 sh2 sh3 (Ht & Hi & Hc) (Ht' & Hi' & Hc'). split_and!.
  - congruence.
  - congruence.
  - intros Hne. rewrite Hc', Hc; [done..|]. by rewrite Ht.
Qed.

Global Instance writes_only_preorder (sheet_name : string) :
  PreOrder (writes_only sheet_name).
Proof.
  split.
  - intros w. split_and!; [done..|]. apply only_cells_of_refl.
  - intros w1 w2 w3 (Hg & Hy & Hs) (Hg' & Hy' & Hs'). split_and!.
    + congruence.
    + congruence.
    + by eapply only_cells_of_trans.
Qed.

Lemma loaded_guild_same (w w' : World) :
  guild w' = guild w → gateway w' = gateway w → loaded_guild w' = loaded_guild w.
Proof. intros Hg Hy. by rewrite !loaded_guild_unfold, Hg, Hy. Qed.

(** Loading is idempotent: a loaded guild is not loaded again. *)
Lemma loaded_guild_loaded (w w' : World) :
  guild w' = loaded_guild w → gateway w' = gateway w →
  loaded_guild w' = loaded_guild w.
Proof.
  intros Hg Hy. rewrite (loaded_guild_unfold w'), Hg, Hy.
  rewrite loaded_guild_unfold.
  destruct (Guild.chunked (guild w)) eqn:Hchunked; [by rewrite Hchunked|].
  destruct (gateway w); [done|]. by rewrite Hchunked.
Qed.

Global Instance syncs_only_preorder (sheet_name : string) :
  PreOrder (syncs_only sheet_name).
Proof.
  split.
  - intros w. split_and!; [by left|done|]. apply only_cells_of_refl.
  - intros w1 w2 w3 (Hg & Hy & Hs) (Hg' & Hy' & Hs'). split_and!.
    + destruct Hg as [Hg|Hg].
      * rewrite (loaded_guild_same w1 w2) in Hg' by done.
        destruct Hg' as [->| ->]; [by left | by right].
      * rewrite (loaded_guild_loaded w1 w2) in Hg' by done.
        right. destruct Hg' as [->| ->]; done.
    + congruence.
    + by eapply only_cells_of_trans.
Qed.

Lemma writes_only_syncs_only (sheet_name : string) (w w' : World) :
  writes_only sheet_name w w' → syncs_only sheet_name w w'.
Proof. intros (Hg & Hy & Hs). split_and!; [by left|done..]. Qed.

Lemma respects_writes_syncs {A} (sheet_name : string) (c : Py A) :
  respects (writes_only sheet_name) c → respects (syncs_only sheet_name) c.
Proof. intros Hc w. apply writes_only_syncs_only, Hc. Qed.

Lemma alter_sheet_only_cells (sheet_name : string)
    (f : gmap (nat * nat) value → gmap (nat * nat) value) (shs shs' : list Sheet) :
  alter_sheet sheet_name f shs = Some shs' → only_cells_of sheet_name shs shs'.
Proof.
  revert shs'. induction shs as [|sh rest IH]; intros shs'; simpl; [done|].
  case_bool_decide as Htitle.
  - intros [= <-]. constructor; [|apply only_cells_of_refl]. done.
  - destruct (alter_sheet sheet_name f rest) as [rest'|]; [|done].
    intros [= <-]. constructor; [done|]. by apply IH.
Qed.

Lemma respects_send (sheet_name : string) (c : content) :
  respects (writes_only sheet_name) (send c).
Proof. intros w. split_and!; [done..|]. apply only_cells_of_refl. Qed.

Lemma respects_edit (sheet_name : string) (c : content) :
  respects (writes_only sheet_name) (edit c).
Proof. intros w. split_and!; [done..|]. apply only_cells_of_refl. Qed.

Lemma respects_datetime_now (sheet_name : string) :
  respects (writes_only sheet_name) datetime_now.
Proof. intros w. split_and!; [done..|]. apply only_cells_of_refl. Qed.

Lemma respects_read_guild (sheet_name : string) :
  respects (writes_only sheet_name) read_guild.
Proof. intros w. split_and!; [done..|]. apply only_cells_of_refl. Qed.

Lemma respects_spreadsheets_get (sheet_name : string) :
  respects (writes_only sheet_name) spreadsheets_get.
Proof. intros w. split_and!; [done..|]. apply only_cells_of_refl. Qed.

Lemma respects_values_clear (r : a1_range) :
  respects (writes_only (range_sheet r)) (values_clear r).
Proof.
  intros w. unfold values_clear.
  destruct (alter_sheet _ _ _) as [shs|] eqn:Halter; cbn.
  - split_and!; [done..|]. by eapply alter_sheet_only_cells.
  - split_and!; [done..|]. apply only_cells_of_refl.
Qed.

Lemma respects_values_update (r : a1_range) (rows : list (list value)) :
  respects (writes_only (range_sheet r)) (values_update r rows).
Proof.
  intros w. unfold values_update. destruct (range_origin r) as [row col].
  destruct (alter_sheet _ _ _) as [shs|] eqn:Halter; cbn.
  - split_and!; [done..|]. by eapply alter_sheet_only_cells.
  - split_and!; [done..|]. apply only_cells_of_refl.
Qed.

Lemma respects_clear_sheet (sheet_name : string) :
  respects (writes_only sheet_name) (clear_sheet sheet_name).
Proof.
  unfold clear_sheet. apply respects_try_except; [apply _| |].
  - apply respects_bind; [apply _|apply respects_spreadsheets_get|].
    intros spreadsheet. destruct (find_sheet_id _ _).
    + apply (respects_values_clear (Columns sheet_name "A" "Z")).
    + apply respects_raise; apply _.
  - intros e. apply respects_raise; apply _.
Qed.

Lemma respects_write_member_data (self : Cog)
    (members_data : list (gmap string value)) (all_roles : list string)
    (sheet_name : string) :
  respects (writes_only sheet_name)
    (write_member_data self members_data all_roles sheet_name).
Proof.
  unfold write_member_data. destruct (sheets_service self).
  - apply respects_try_except; [apply _| |].
    + apply respects_bind; [apply _|apply respects_lift_result; apply _|]. intros rows.
      apply respects_bind; [apply _|apply respects_clear_sheet|]. intros _.
      apply respects_bind; [apply _| |].
      * apply (respects_values_update (Cell sheet_name "A" 1)).
      * intros _. apply respects_ret; apply _.
    + intros e. apply respects_raise; apply _.
  - apply respects_raise; apply _.
Qed.

Lemma respects_ensure_chunked (sheet_name : string) :
  respects (syncs_only sheet_name) ensure_chunked.
Proof.
  intros w. rewrite ensure_chunked_run. split_and!; [by right|done|].
  apply only_cells_of_refl.
Qed.

Lemma respects_members_loop (sheet_name : string) (all_roles : list string)
    (members : list Member.t) (members_data : list (gmap string value)) :
  respects (writes_only sheet_name) (members_loop all_roles members members_data).
Proof.
  intros w. rewrite members_loop_run. split_and!; [done..|].
  apply only_cells_of_refl.
Qed.

Lemma respects_get_member_data (sheet_name : string) :
  respects (syncs_only sheet_name) get_member_data.
Proof.
  unfold get_member_data.
  apply respects_bind; [apply _|apply respects_ensure_chunked|]. intros _.
  apply respects_writes_syncs.
  apply respects_bind; [apply _|apply respects_read_guild|]. intros guild.
  apply respects_bind; [apply _|apply respects_members_loop|]. intros members_data.
  apply respects_ret; apply _.
Qed.

Lemma respects_sync_members (self : Cog) (author sheet_name : string) :
  respects (syncs_only sheet_name) (sync_members self author sheet_name).
Proof.
  unfold sync_members. destruct (sheets_service self).
  2: { apply respects_writes_syncs, respects_send. }
  case_bool_decide.
  { apply respects_writes_syncs, respects_send. }
  apply respects_bind; [apply _|apply respects_writes_syncs, respects_send|].
  intros _. apply respects_try_except; [apply _| |].
  2: { intros e. apply respects_writes_syncs, respects_edit. }
  apply respects_bind; [apply _|apply respects_writes_syncs, respects_edit|].
  intros _. apply respects_bind; [apply _|apply respects_get_member_data|].
  intros [members_data all_roles]. apply respects_writes_syncs.
  destruct members_data as [|record members_data]; [apply respects_edit|].
  apply respects_bind; [apply _|apply respects_edit|]. intros _.
  apply respects_bind; [apply _|apply respects_write_member_data|].
  intros member_count.
  apply respects_bind; [apply _|apply respects_datetime_now|]. intros now.
  apply respects_bind; [apply _|apply respects_read_guild|]. intros guild.
  apply respects_edit.
Qed.

(** C10. The member list of the guild is not the same after every sync: a
    guild whose member cache is not loaded has it loaded by the sync. *)
Lemma sync_members_loads_member_cache :
  let alice := sample_member "alice" 42 [everyone_role] everyone_role false None in
  let w := sample_world (sample_guild false [] [everyone_role]) (Ok [alice])
             [{| title := "Benji"; sheetId := 0; cells := ∅ |}] in
  let w' := (sync_members sample_cog "admin" "Benji" w).2 in
  Guild.members (guild w) = [] ∧
  Guild.members (guild w') = [alice] ∧
  Guild.members (guild w') ≠ Guild.members (guild w).
Proof.
  cbv zeta.
  match goal with
  | |- _ ∧ ?after = _ ∧ _ =>
      assert (after = [sample_member "alice" 42 [everyone_role] everyone_role false None])
        as Hafter by (vm_compute; reflexivity)
  end.
  rewrite Hafter. split_and!; [done..|discriminate].
Qed.

(** C10, amended. A sync changes the guild at most by loading its member
    cache: the guild after the sync is the guild before it, or, when the
    guild was not chunked and the gateway answered the chunk request, the
    same guild with the answered member list and marked as chunked. The role
    list is the same in both cases, and so is the whole guild when it was
    chunked already. Of the spreadsheet only the cells of the sheet with the
    target name may change: every sheet keeps its title and id, and the
    other sheets keep their cells. *)
Theorem sync_members_frame (self : Cog) (author sheet_name : string) (w : World) :
  let w' := (sync_members self author sheet_name w).2 in
  (guild w' = guild w ∨
   Guild.chunked (guild w) = false ∧
   ∃ loaded, gateway w = Ok loaded ∧
     guild w' = {| Guild.name := Guild.name (guild w); Guild.chunked := true;
                   Guild.members := loaded;
                   Guild.roles := Guild.roles (guild w) |}) ∧
  Guild.roles (guild w') = Guild.roles (guild w) ∧
  (Guild.chunked (guild w) = true → guild w' = guild w) ∧
  Forall2 (λ sh sh', title sh' = title sh ∧ sheetId sh' = sheetId sh ∧
                     (title sh ≠ sheet_name → cells sh' = cells sh))
    (sheets w) (sheets w').
Proof.
  cbv zeta. destruct (respects_sync_members self author sheet_name w)
    as (Hguild & _ & Hsheets).
  rewrite loaded_guild_unfold in Hguild.
  split_and!; [| | |exact Hsheets].
  - destruct Hguild as [Hg|Hg]; [by left|].
    destruct (Guild.chunked (guild w)); [by left|].
    destruct (gateway w) as [loaded|e]; [|by left].
    right. eauto.
  - destruct Hguild as [->| ->]; [done|].
    destruct (Guild.chunked (guild w)); [done|]. by destruct (gateway w).
  - intros Hchunked. rewrite Hchunked in Hguild. by destruct Hguild.
Qed.

(** ** Clearing and writing cells *)

Lemma clear_cells_lookup (r : a1_range) (cs : gmap (nat * nat) value)
    (rc : nat * nat) :
  clear_cells r cs !! rc = if in_range r rc then None else cs !! rc.
Proof.
  unfold clear_cells. rewrite map_lookup_filter.
  destruct (cs !! rc) as [v|] eqn:Hv; cbn; [|by destruct (in_range r rc)].
  destruct (in_range r rc); by case_guard.
Qed.

Lemma write_row_lookup (row col : nat) (vs : list value)
    (cs : gmap (nat * nat) value) (i j : nat) :
  write_row row col vs cs !! (i, j) =
  if decide (i = row ∧ col ≤ j < col + length vs)%nat
  then vs !! (j - col)%nat else cs !! (i, j).
Proof.
  revert col cs. induction vs as [|v rest IH]; intros col cs; simpl.
  - case_decide; [lia|done].
  - rewrite IH. destruct (decide (i = row ∧ j = col)) as [[-> ->]|Hne].
    + rewrite decide_False by lia. rewrite decide_True by lia.
      rewrite lookup_insert_eq. by rewrite Nat.sub_diag.
    + rewrite lookup_insert_ne by (intros [= <- <-]; by apply Hne).
      repeat case_decide; try lia; try done.
      replace (j - col)%nat with (S (j - S col)) by lia. done.
Qed.

Lemma write_rows_lookup (row col : nat) (grid : list (list value))
    (cs : gmap (nat * nat) value) (i j : nat) :
  write_rows row col grid cs !! (i, j) =
  if decide (row ≤ i)%nat then
    match grid !! (i - row)%nat with
    | Some vs =>
        if decide (col ≤ j < col + length vs)%nat
        then vs !! (j - col)%nat else cs !! (i, j)
    | None => cs !! (i, j)
    end
  else cs !! (i, j).
Proof.
  revert row cs. induction grid as [|vs rest IH]; intros row cs; simpl.
  { by case_decide. }
  rewrite IH, write_row_lookup.
  destruct (decide (i < row)%nat) as [Hlt|Hge].
  { rewrite !(decide_False (P := (_ ≤ i)%nat)) by lia.
    by rewrite decide_False by lia. }
  rewrite (decide_True (P := (row ≤ i)%nat)) by lia.
  destruct (decide (i = row)) as [->|Hne].
  - rewrite (decide_False (P := (S row ≤ row)%nat)) by lia.
    rewrite Nat.sub_diag. cbn. repeat case_decide; try lia; done.
  - rewrite (decide_True (P := (S row ≤ i)%nat)) by lia.
    rewrite (decide_False (P := (i = row ∧ _)%nat)) by lia.
    replace (i - row)%nat with (S (i - S row)) by lia. done.
Qed.

Lemma alter_sheet_cells (sheet_name : string)
    (f : gmap (nat * nat) value → gmap (nat * nat) value)
    (shs : list Sheet) (cs : gmap (nat * nat) value) :
  sheet_cells sheet_name shs = Some cs →
  ∃ shs', alter_sheet sheet_name f shs = Some shs' ∧
          sheet_cells sheet_name shs' = Some (f cs).
Proof.
  induction shs as [|sh rest IH]; simpl; [done|]. case_bool_decide as Htitle.
  - intros [= <-]. eexists. split; [done|]. cbn.
    by rewrite bool_decide_eq_true_2.
  - intros (rest' & -> & Hcells)%IH. eexists. split; [done|]. cbn.
    by rewrite bool_decide_eq_false_2.
Qed.

Lemma find_sheet_id_present (sheet_name : string) (shs : list Sheet)
    (cs : gmap (nat * nat) value) :
  sheet_cells sheet_name shs = Some cs → is_Some (find_sheet_id sheet_name shs).
Proof.
  induction shs as [|sh rest IH]; simpl; [done|]. case_bool_decide; eauto.
Qed.

(** What a successful run of the sheet writer leaves in the named sheet: the
    rows, written from A1 over the cells that survive the clearing of columns
    A to Z. *)
Lemma write_member_data_run (self : Cog) (svc : service)
    (members_data : list (gmap string value)) (all_roles : list string)
    (rows : list (list value)) (sheet_name : string)
    (cs : gmap (nat * nat) value) (w : World) :
  sheets_service self = Some svc →
  data_rows members_data all_roles = Ok rows →
  sheet_cells sheet_name (sheets w) = Some cs →
  ∃ w', write_member_data self members_data all_roles sheet_name w
          = (Ok (length members_data), w') ∧
        sheet_cells sheet_name (sheets w') =
          Some (write_rows 0 0 rows (clear_cells (Columns sheet_name "A" "Z") cs)) ∧
        requests w' = requests w ++
          [GetSpreadsheet; ClearValues (Columns sheet_name "A" "Z");
           UpdateValues (Cell sheet_name "A" 1) rows].
Proof.
  intros Hsvc Hrows Hcells.
  destruct (alter_sheet_cells sheet_name
              (clear_cells (Columns sheet_name "A" "Z")) _ _ Hcells)
    as (shs1 & Hclear & Hcells1).
  destruct (alter_sheet_cells sheet_name (write_rows 0 0 rows) _ _ Hcells1)
    as (shs2 & Hupdate & Hcells2).
  destruct (find_sheet_id_present _ _ _ Hcells) as [sheet_id Hid].
  eexists. unfold write_member_data. rewrite Hsvc.
  unfold try_except at 1. unfold mbind at 1. unfold Py_bind at 1.
  unfold lift_result. rewrite Hrows.
  unfold mbind at 1. unfold Py_bind at 1.
  unfold clear_sheet, try_except, mbind at 1, Py_bind at 1, spreadsheets_get.
  rewrite Hid. unfold values_clear. cbn [range_sheet]. world_simpl.
  rewrite Hclear.
  unfold mbind, Py_bind, values_update. cbn [range_sheet range_origin].
  change (column_index "A") with 0%nat. cbn [pred]. world_simpl.
  rewrite Hupdate. split; [reflexivity|]. world_simpl.
  split; [done|]. by rewrite <- !app_assoc.
Qed.

(** Every cell of the named sheet after a write: inside the grid it is the
    grid's value; outside the grid it is empty in columns A to Z, and what it
    was before the write in the columns after Z. *)
Lemma write_member_data_cell (self : Cog) (svc : service)
    (members_data : list (gmap string value)) (all_roles : list string)
    (rows : list (list value)) (sheet_name : string)
    (cs : gmap (nat * nat) value) (w : World) (i j : nat) :
  sheets_service self = Some svc →
  data_rows members_data all_roles = Ok rows →
  sheet_cells sheet_name (sheets w) = Some cs →
  ∃ cs', sheet_cells sheet_name
           (sheets (write_member_data self members_data all_roles sheet_name w).2)
           = Some cs' ∧
         cs' !! (i, j) =
           match rows !! i ≫= (.!! j) with
           | Some v => Some v
           | None => if decide (j ≤ 25)%nat then None else cs !! (i, j)
           end.
Proof.
  intros Hsvc Hrows Hcells.
  destruct (write_member_data_run _ _ _ _ _ _ _ _ Hsvc Hrows Hcells)
    as (w' & -> & Hcells' & _).
  eexists. split; [exact Hcells'|].
  rewrite write_rows_lookup, clear_cells_lookup. cbn [in_range snd].
  change (column_index "A") with 0%nat. change (column_index "Z") with 25%nat.
  rewrite decide_True by lia. rewrite Nat.sub_0_r.
  destruct (rows !! i) as [vs|]; cbn.
  - rewrite Nat.sub_0_r. destruct (vs !! j) as [v|] eqn:Hv.
    + apply lookup_lt_Some in Hv as Hlt. by rewrite decide_True by lia.
    + apply lookup_ge_None in Hv as Hge. rewrite decide_False by lia.
      case_bool_decide; case_decide; try lia; done.
  - case_bool_decide; case_decide; try lia; done.
Qed.

Lemma grid_cells_lookup (grid : list (list value)) (i j : nat) :
  grid_cells grid !! (i, j) = grid !! i ≫= (.!! j).
Proof.
  unfold grid_cells. rewrite write_rows_lookup, decide_True by lia.
  rewrite Nat.sub_0_r, lookup_empty. destruct (grid !! i) as [vs|]; cbn; [|done].
  rewrite Nat.sub_0_r. case_decide; [done|].
  symmetry. apply lookup_ge_None. lia.
Qed.

Lemma base_row_length (member : gmap string value) (base : list value) :
  base_row member = Ok base → length base = 15%nat.
Proof.
  unfold base_row, getitem.
  repeat (match goal with
          | |- match member !! ?k with Some _ => _ | None => _ end ≫= _ = _ → _ =>
              destruct (member !! k)
          end; cbn [mbind result_bind]; [|done]).
  unfold mret, result_ret. by intros [= <-].
Qed.

Lemma rows_loop_width (all_roles : list string)
    (members_data : list (gmap string value)) (acc rows : list (list value)) :
  Forall (λ vs, length vs = (15 + length all_roles)%nat) acc →
  rows_loop all_roles members_data acc = Ok rows →
  Forall (λ vs, length vs = (15 + length all_roles)%nat) rows.
Proof.
  revert acc. induction members_data as [|member rest IH]; intros acc Hacc; simpl.
  - by intros [= <-].
  - destruct (base_row member) as [base|e] eqn:Hbase; cbn [mbind result_bind]; [|done].
    apply IH. apply Forall_app. split; [done|]. constructor; [|done].
    rewrite length_app, (base_row_length _ _ Hbase).
    unfold role_data. by rewrite length_fmap.
Qed.

(** Every row of the projected grid has fifteen base cells and one cell per
    catalog entry. *)
Lemma data_rows_width (members_data : list (gmap string value))
    (all_roles : list string) (rows : list (list value)) :
  data_rows members_data all_roles = Ok rows →
  Forall (λ vs, length vs = (15 + length all_roles)%nat) rows.
Proof.
  unfold data_rows. apply rows_loop_width. constructor; [|done].
  by rewrite length_fmap, length_app, length_fmap.
Qed.

(** Where the full replace holds: on a sheet with nothing after column Z,
    written with a catalog of at most eleven roles and then written again,
    the cells are exactly those of the second grid. *)
Lemma full_replace_within_A_Z (self : Cog) (svc : service)
    (members_data1 members_data2 : list (gmap string value))
    (all_roles1 all_roles2 : list string) (rows1 rows2 : list (list value))
    (sheet_name : string) (cs : gmap (nat * nat) value) (w : World) :
  sheets_service self = Some svc →
  data_rows members_data1 all_roles1 = Ok rows1 →
  data_rows members_data2 all_roles2 = Ok rows2 →
  sheet_cells sheet_name (sheets w) = Some cs →
  (∀ i j, 25 < j → cs !! (i, j) = None)%nat →
  (length all_roles1 ≤ 11)%nat →
  let w1 := (write_member_data self members_data1 all_roles1 sheet_name w).2 in
  let w2 := (write_member_data self members_data2 all_roles2 sheet_name w1).2 in
  sheet_cells sheet_name (sheets w2) = Some (grid_cells rows2).
Proof.
  intros Hsvc Hrows1 Hrows2 Hcells Hcs Hroles. cbv zeta.
  destruct (write_member_data_run _ _ _ _ _ _ _ w Hsvc Hrows1 Hcells)
    as (w1 & Hrun1 & Hcells1 & _).
  rewrite Hrun1. cbn [snd].
  destruct (write_member_data_run _ _ _ _ _ _ _ w1 Hsvc Hrows2 Hcells1)
    as (w2 & Hrun2 & Hcells2 & _).
  rewrite Hrun2. cbn [snd]. rewrite Hcells2. f_equal.
  apply map_eq. intros [i j].
  rewrite grid_cells_lookup, write_rows_lookup, decide_True by lia.
  rewrite Nat.sub_0_r.
  assert (clear_cells (Columns sheet_name "A" "Z")
            (write_rows 0 0 rows1 (clear_cells (Columns sheet_name "A" "Z") cs))
            !! (i, j) = None) as Hcleared.
  { rewrite clear_cells_lookup. cbn [in_range snd].
    change (column_index "A") with 0%nat. change (column_index "Z") with 25%nat.
    case_bool_decide as Hj; [done|].
    rewrite write_rows_lookup, decide_True by lia. rewrite Nat.sub_0_r.
    assert (clear_cells (Columns sheet_name "A" "Z") cs !! (i, j) = None) as Hprior.
    { rewrite clear_cells_lookup. destruct (in_range _ _); [done|].
      apply Hcs. lia. }
    destruct (rows1 !! i) as [vs|] eqn:Hvs; [|done].
    apply (Forall_lookup_1 _ _ _ _ (data_rows_width _ _ _ Hrows1)) in Hvs.
    cbn in Hvs. rewrite decide_False by lia. done. }
  rewrite Hcleared. destruct (rows2 !! i) as [vs|]; cbn; [|done].
  rewrite Nat.sub_0_r. case_decide; [done|].
  symmetry. apply lookup_ge_None. lia.
Qed.

(** C1. A sheet written with a catalog of twelve roles, 27 columns, and then
    with an empty catalog, 15 columns: both writes succeed, and the cells of
    the first grid in column AA, which is outside the cleared range A:Z, are
    still there, so that the sheet does not hold exactly the second grid. *)
Theorem clear_sheet_leaves_column_AA :
  let now_aware := {| instant := 1700000000000000; aware := true |} in
  let alice := sample_member "alice" 42 [everyone_role] everyone_role false None in
  let catalog := ["r01"; "r02"; "r03"; "r04"; "r05"; "r06";
                  "r07"; "r08"; "r09"; "r10"; "r11"; "r12"] in
  let w := sample_world (sample_guild true [alice] [everyone_role])
             (Err (Exception "no members intent"))
             [{| title := "Benji"; sheetId := 0; cells := ∅ |}] in
  let run1 := write_member_data sample_cog
                [member_info now_aware catalog alice] catalog "Benji" w in
  let run2 := write_member_data sample_cog
                [member_info now_aware [] alice] [] "Benji" run1.2 in
  run1.1 = Ok 1%nat ∧ run2.1 = Ok 1%nat ∧
  ∃ cs grid2,
    sheet_cells "Benji" (sheets run2.2) = Some cs ∧
    data_rows [member_info now_aware [] alice] [] = Ok grid2 ∧
    cs !! (0%nat, 26%nat) = Some (VStr "Role: r12") ∧
    cs !! (1%nat, 26%nat) = Some (VStr "No") ∧
    grid_cells grid2 !! (0%nat, 26%nat) = None ∧
    cs ≠ grid_cells grid2.
Proof.
  cbv zeta. split; [by vm_compute|]. split; [by vm_compute|].
  match goal with
  | |- ∃ cs grid2, sheet_cells _ ?shs = _ ∧ ?rows = _ ∧ _ =>
      assert (sheet_cells "Benji" shs ≫= (.!! (0%nat, 26%nat))
                = Some (VStr "Role: r12")) as H0 by (by vm_compute);
      assert (sheet_cells "Benji" shs ≫= (.!! (1%nat, 26%nat))
                = Some (VStr "No")) as H1 by (by vm_compute);
      destruct (sheet_cells "Benji" shs) as [cs|]; [|done];
      destruct rows as [grid2|e] eqn:Hrows; [|by vm_compute in Hrows]
  end.
  cbn in H0, H1. exists cs, grid2. split; [done|]. split; [done|].
  assert (grid_cells grid2 !! (0%nat, 26%nat) = None) as H2.
  { rewrite grid_cells_lookup.
    pose proof (data_rows_width _ _ _ Hrows) as Hwidth. cbn in Hwidth.
    destruct (grid2 !! 0%nat) as [vs|] eqn:Hvs; [|done]. cbn.
    apply (Forall_lookup_1 _ _ _ _ Hwidth) in Hvs. apply lookup_ge_None. lia. }
  split_and!; [done..|]. intros ->. congruence.
Qed.

(** * Further properties of the pipeline *)

(** ** The projected grid *)

(** Membership in a list that is written out. *)
Ltac in_list :=
  repeat first [apply list_elem_of_here | apply list_elem_of_further].

Lemma member_info_base_keys (now_aware : datetime) (all_roles : list string)
    (member : Member.t) (key : string) :
  key ∈ base_keys → is_Some (member_info now_aware all_roles member !! key).
Proof.
  intros Hkey. unfold base_keys in Hkey.
  assert (∀ role_name, key ≠ "role_" +:+ role_name) as Hbase
    by (intros role_name; by apply base_key_not_role_key).
  unfold member_info; cbv zeta.
  rewrite lookup_union_r by by rewrite role_columns_loop_lookup_other.
  clear Hbase. cbn [list_to_map foldr fst snd].
  repeat (apply elem_of_cons in Hkey as [->|Hkey];
          [repeat (rewrite lookup_insert_ne by discriminate);
           rewrite lookup_insert_eq; by eexists|]).
  by apply elem_of_nil in Hkey.
Qed.

Lemma base_row_ok (member : gmap string value) :
  (∀ key, key ∈ base_keys → is_Some (member !! key)) →
  ∃ base, base_row member = Ok base.
Proof.
  intros Hkeys. unfold base_row, getitem.
  repeat (match goal with
          | |- ∃ _, match member !! ?k with Some _ => _ | None => _ end ≫= _ = _ =>
              let v := fresh "v" in let Hv := fresh "Hv" in
              destruct (Hkeys k) as [v Hv];
                [unfold base_keys; in_list | rewrite Hv; cbn [mbind result_bind]]
          end).
  by eexists.
Qed.

Lemma base_row_err (member : gmap string value) (e : exn) :
  base_row member = Err e →
  ∃ key, key ∈ base_keys ∧ member !! key = None ∧ e = KeyError key.
Proof.
  unfold base_row, getitem.
  repeat (match goal with
          | |- match member !! ?k with Some _ => _ | None => _ end ≫= _ = _ → _ =>
              let Hv := fresh "Hv" in
              destruct (member !! k) eqn:Hv; cbn [mbind result_bind];
                [|intros [= <-]; exists k; split_and!;
                    [unfold base_keys; in_list | done..]]
          end).
  done.
Qed.

Lemma rows_loop_ok (all_roles : list string)
    (members_data : list (gmap string value)) (acc rows : list (list value)) :
  rows_loop all_roles members_data acc = Ok rows →
  ∃ new, rows = acc ++ new ∧ length new = length members_data.
Proof.
  revert acc. induction members_data as [|member rest IH]; intros acc; simpl.
  - intros [= <-]. exists []. by rewrite app_nil_r.
  - destruct (base_row member) as [base|e]; cbn [mbind result_bind]; [|done].
    intros (new & -> & Hlen)%IH. eexists (_ :: new).
    rewrite <- app_assoc. split; [done|]. cbn. by rewrite Hlen.
Qed.

Lemma rows_loop_err (all_roles : list string)
    (members_data : list (gmap string value)) (acc : list (list value)) (e : exn) :
  rows_loop all_roles members_data acc = Err e →
  ∃ member, member ∈ members_data ∧ base_row member = Err e.
Proof.
  revert acc. induction members_data as [|member rest IH]; intros acc; simpl; [done|].
  destruct (base_row member) as [base|e'] eqn:Hbase; cbn [mbind result_bind].
  - intros (member' & Hin & Herr)%IH. exists member'. split; [by right|done].
  - intros [= <-]. exists member. split; [left|done].
Qed.

Lemma data_rows_ok (members_data : list (gmap string value))
    (all_roles : list string) :
  (∀ member key, member ∈ members_data → key ∈ base_keys →
     is_Some (member !! key)) →
  ∃ rows, data_rows members_data all_roles = Ok rows.
Proof.
  intros Hkeys.
  assert (∃ bases, Forall2 (λ member base, base_row member = Ok base)
                     members_data bases) as [bases Hbases].
  { induction members_data as [|member rest IH]; [by exists []|].
    destruct IH as [bases Hbases].
    { intros member' key Hin. apply Hkeys. by right. }
    destruct (base_row_ok member) as [base Hbase].
    { intros key. apply Hkeys. left. }
    exists (base :: bases). by constructor. }
  eexists. unfold data_rows. by rewrite (rows_loop_app _ _ bases).
Qed.

Lemma data_rows_err (members_data : list (gmap string value))
    (all_roles : list string) (e : exn) :
  data_rows members_data all_roles = Err e →
  ∃ member key, member ∈ members_data ∧ key ∈ base_keys ∧
                member !! key = None ∧ e = KeyError key.
Proof.
  intros (member & Hin & Herr)%rows_loop_err.
  apply base_row_err in Herr as (key & Hkey & Hnone & ->). eauto 10.
Qed.

Lemma data_rows_length (members_data : list (gmap string value))
    (all_roles : list string) (rows : list (list value)) :
  data_rows members_data all_roles = Ok rows →
  length rows = S (length members_data).
Proof. intros (new & -> & Hlen)%rows_loop_ok. cbn. by rewrite Hlen. Qed.

(** X1. A projected grid is rectangular: it has the header row and one row
    per record, its header is the fifteen base labels followed by the label
    "Role: name" of every catalog entry, and every row has fifteen cells plus
    one per catalog entry. *)
Theorem data_rows_shape (members_data : list (gmap string value))
    (all_roles : list string) (rows : list (list value)) :
  data_rows members_data all_roles = Ok rows →
  length rows = S (length members_data) ∧
  rows !! 0%nat =
    Some (VStr <$> (base_headers ++ ((λ role, "Role: " +:+ role) <$> all_roles))) ∧
  Forall (λ cells, length cells = (15 + length all_roles)%nat) rows.
Proof.
  intros Hrows. split_and!.
  - by apply data_rows_length in Hrows.
  - by apply rows_loop_ok in Hrows as (new & -> & Hlen).
  - by eapply data_rows_width.
Qed.

Lemma data_rows_shape_witness :
  let record := member_info {| instant := 1700000000000000; aware := true |}
                  ["Admin"]
                  (sample_member "alice" 42 [everyone_role] everyone_role false None) in
  ∃ rows, data_rows [record] ["Admin"] = Ok rows ∧
    length rows = 2%nat ∧
    rows !! 0%nat =
      Some (VStr <$> (base_headers ++ ["Role: Admin"])) ∧
    Forall (λ cells, length cells = 16%nat) rows.
Proof.
  cbv zeta.
  destruct (data_rows_member_info ["Admin"]
    [({| instant := 1700000000000000; aware := true |},
      sample_member "alice" 42 [everyone_role] everyone_role false None)])
    as (bases & _ & Hrows).
  { rewrite elem_of_cons, elem_of_nil. intros [|[]]. discriminate. }
  cbn [fmap list_fmap fst snd] in Hrows. eexists. split; [exact Hrows|].
  exact (data_rows_shape _ _ _ Hrows).
Defined.


(** X3. Every record that [get_member_data] returns can be projected: on
    the records and the catalog of one collection, the projection returns a
    grid with one row per record under the header, whatever the guild. *)
Theorem get_member_data_projects (w : World) :
  ∃ members_data all_roles w' rows,
    get_member_data w = (Ok (members_data, all_roles), w') ∧
    data_rows members_data all_roles = Ok rows ∧
    length rows = S (length members_data).
Proof.
  destruct (data_rows_ok
    (imap (λ i m, member_info (reading w i) (get_all_roles (loaded_guild w)) m)
       (filter (λ m, Member.bot m = false) (Guild.members (loaded_guild w))))
    (get_all_roles (loaded_guild w))) as [rows Hrows].
  { intros member key (i & Hi)%list_elem_of_lookup Hkey.
    apply list_lookup_imap_Some in Hi as (m & _ & ->).
    by apply member_info_base_keys. }
  eexists _, _, _, rows. split; [apply get_member_data_run|].
  split; [done|]. by apply data_rows_length in Hrows.
Qed.

(** X4. The fifteen base cells of a member's row, in the order of the
    header: they do not depend on the role catalog, whose columns cannot
    overwrite a base field, the nickname of a member without one is empty,
    the roles cell leaves "@everyone" out and reads "None" when no other role
    is held, and the "Is Online" cell is "No" only for the offline status. *)
Theorem base_row_of_member (now_aware : datetime) (all_roles : list string)
    (member : Member.t) :
  let names :=
    filter (λ n, n ≠ "@everyone") (Role.name <$> Member.roles member) in
  base_row (member_info now_aware all_roles member) =
  Ok [VStr (Member.to_str member);
      VStr (Member.display_name member);
      VStr (pretty (Member.id member));
      VStr (Member.discriminator member);
      VStr (default "" (Member.nick member));
      VStr (match names with [] => "None" | _ => join ", " names end);
      VStr (if bool_decide (Role.name (Member.top_role member) = "@everyone")
            then "Member" else Role.name (Member.top_role member));
      VStr (strftime (Member.created_at member));
      VInt (match datetime_sub now_aware (Member.created_at member) with
            | Some delta => delta `div` 86400000000
            | None => 0
            end);
      VStr (match Member.joined_at member with
            | Some joined => strftime joined
            | None => "Unknown"
            end);
      VInt (match Member.joined_at member ≫= datetime_sub now_aware with
            | Some delta => delta `div` 86400000000
            | None => 0
            end);
      VStr (Status.to_str (Member.status member));
      VStr (match Member.status member with
            | Status.offline => "No"
            | _ => "Yes"
            end);
      VStr (default "No Avatar" (Member.avatar member));
      VStr (strftime now_aware)].
Proof.
  cbv zeta. unfold base_row, getitem.
  repeat (match goal with
          | |- context [member_info ?n ?r ?m !! ?k] =>
              let H := fresh in
              eassert (member_info n r m !! k = Some _) as H
                by (member_info_lookup; reflexivity);
              rewrite H; clear H
          end; cbn [mbind result_bind]).
  unfold mret, result_ret. f_equal.
  repeat match goal with |- _ :: _ = _ :: _ => f_equal end; try done.
  - f_equal. destruct (Member.nick member) as [n|]; [|done]. cbn.
    by case_bool_decide.
  - f_equal.
    assert (Role.name <$> filter (λ role, Role.name role ≠ "@everyone")
                            (Member.roles member)
            = filter (λ n, n ≠ "@everyone") (Role.name <$> Member.roles member))
      as ->.
    { induction (Member.roles member) as [|role rest IH]; [done|].
      cbn [fmap list_fmap]. rewrite !filter_cons.
      case_decide; cbn [fmap list_fmap]; by rewrite IH. }
    destruct (filter _ _); [done|]. by rewrite bool_decide_eq_true_2.
  - f_equal. by repeat case_bool_decide.
  - destruct (Member.joined_at member) as [joined|]; [|done]. cbn.
    by destruct (datetime_sub now_aware joined).
  - cbn [truthy]. destruct (Member.status member); by case_bool_decide.
Qed.

(** X5. Membership cannot be older than the account: for a member whose
    account was created before the member joined, both before the reading of
    the clock and all timezone-aware, the membership age in days is at least
    0 and at most the account age in days. *)
Theorem server_age_le_account_age (t : Z) (all_roles : list string)
    (member : Member.t) (joined : datetime) :
  Member.joined_at member = Some joined →
  aware (Member.created_at member) = true → aware joined = true →
  instant (Member.created_at member) ≤ instant joined → instant joined ≤ t →
  ∃ account_age server_age,
    member_info {| instant := t; aware := true |} all_roles member
      !! "account_age_days" = Some (VInt account_age) ∧
    member_info {| instant := t; aware := true |} all_roles member
      !! "server_age_days" = Some (VInt server_age) ∧
    0 ≤ server_age ≤ account_age.
Proof.
  intros Hjoined Hcreated Haware Hle Hnow.
  eexists _, _. split_and!.
  - member_info_lookup. unfold datetime_sub. cbn [aware instant].
    rewrite Hcreated, bool_decide_eq_true_2 by done. reflexivity.
  - member_info_lookup. rewrite Hjoined. unfold datetime_sub. cbn [aware instant].
    rewrite Haware, bool_decide_eq_true_2 by done. reflexivity.
  - unfold days, MICROS_PER_DAY. apply Z.div_pos; lia.
  - unfold days, MICROS_PER_DAY. apply Z.div_le_mono; lia.
Qed.

Lemma server_age_le_account_age_witness :
  let joined := {| instant := 1699000000000000; aware := true |} in
  let member := sample_member "bob" 43 [everyone_role] everyone_role false
                  (Some joined) in
  ∃ account_age server_age,
    member_info {| instant := 1700000000000000; aware := true |} [] member
      !! "account_age_days" = Some (VInt account_age) ∧
    member_info {| instant := 1700000000000000; aware := true |} [] member
      !! "server_age_days" = Some (VInt server_age) ∧
    0 ≤ server_age ≤ account_age.
Proof.
  cbv zeta.
  apply (server_age_le_account_age 1700000000000000 []
           (sample_member "bob" 43 [everyone_role] everyone_role false
              (Some {| instant := 1699000000000000; aware := true |}))
           {| instant := 1699000000000000; aware := true |});
    [reflexivity | reflexivity | reflexivity | cbn; lia | cbn; lia].
Defined.

(** ** The collection *)

(** X6. A chunk request that fails is passed over: the records are built
    from the members that the cache holds, with the catalog of the guild,
    and the guild is left as it was, not chunked. *)
Theorem get_member_data_chunk_failure (w : World) (e : exn) :
  Guild.chunked (guild w) = false → gateway w = Err e →
  let humans := filter (λ m, Member.bot m = false) (Guild.members (guild w)) in
  ∃ w', get_member_data w =
          (Ok (imap (λ i m, member_info (reading w i)
                              (get_all_roles (guild w)) m) humans,
               get_all_roles (guild w)), w') ∧
        guild w' = guild w ∧ sheets w' = sheets w ∧ requests w' = requests w.
Proof.
  intros Hchunked Hgateway. cbv zeta.
  pose proof (get_member_data_run w) as Hrun. cbv zeta in Hrun.
  rewrite loaded_guild_unfold, Hchunked, Hgateway in Hrun.
  eexists. split; [exact Hrun|]. done.
Qed.

Lemma get_member_data_chunk_failure_witness :
  let alice := sample_member "alice" 42 [everyone_role] everyone_role false None in
  let w := sample_world (sample_guild false [alice] [everyone_role])
             (Err (Exception "no members intent")) [] in
  ∃ w', get_member_data w =
          (Ok ([member_info (reading w 0) [] alice], []), w') ∧
        guild w' = guild w ∧ sheets w' = sheets w ∧ requests w' = requests w.
Proof.
  cbv zeta.
  exact (get_member_data_chunk_failure
           (sample_world
              (sample_guild false
                 [sample_member "alice" 42 [everyone_role] everyone_role false None]
                 [everyone_role])
              (Err (Exception "no members intent")) [])
           (Exception "no members intent") eq_refl eq_refl).
Defined.

(** ** The sheet writer *)

Lemma written_cells_lookup (sheet_name : string) (rows : list (list value))
    (cs : gmap (nat * nat) value) (i j : nat) :
  write_rows 0 0 rows (clear_cells (Columns sheet_name "A" "Z") cs) !! (i, j) =
  match rows !! i ≫= (.!! j) with
  | Some v => Some v
  | None => if decide (j ≤ 25)%nat then None else cs !! (i, j)
  end.
Proof.
  rewrite write_rows_lookup, clear_cells_lookup. cbn [in_range snd].
  change (column_index "A") with 0%nat. change (column_index "Z") with 25%nat.
  rewrite decide_True by lia. rewrite Nat.sub_0_r.
  destruct (rows !! i) as [vs|]; cbn.
  - rewrite Nat.sub_0_r. destruct (vs !! j) as [v|] eqn:Hv.
    + apply lookup_lt_Some in Hv as Hlt. by rewrite decide_True by lia.
    + apply lookup_ge_None in Hv as Hge. rewrite decide_False by lia.
      case_bool_decide; case_decide; try lia; done.
  - case_bool_decide; case_decide; try lia; done.
Qed.

(** X7. A record that lacks a base key stops the sheet writer before it
    reaches the spreadsheet: the [KeyError] of the projection is raised to the
    caller and the world is as it was, without any request made, so that the
    sheet keeps its contents. *)
Theorem write_member_data_key_error (self : Cog) (svc : service)
    (members_data : list (gmap string value)) (all_roles : list string)
    (sheet_name : string) (e : exn) (w : World) :
  sheets_service self = Some svc →
  data_rows members_data all_roles = Err e →
  write_member_data self members_data all_roles sheet_name w = (Err e, w) ∧
  ∃ member key, member ∈ members_data ∧ key ∈ base_keys ∧
                member !! key = None ∧ e = KeyError key.
Proof.
  intros Hsvc Hrows. split.
  - unfold write_member_data. rewrite Hsvc.
    unfold try_except, mbind, Py_bind, lift_result. by rewrite Hrows.
  - by apply data_rows_err in Hrows.
Qed.

Lemma write_member_data_key_error_witness :
  let w := sample_world (sample_guild true [] []) (Ok [])
             [{| title := "Benji"; sheetId := 0;
                 cells := {[ (0%nat, 0%nat) := VStr "kept" ]} |}] in
  let record : gmap string value := {[ "username" := VStr "alice" ]} in
  write_member_data sample_cog [record] [] "Benji" w
    = (Err (KeyError "display_name"), w) ∧
  ∃ member key, member ∈ [record] ∧ key ∈ base_keys ∧
                member !! key = None ∧ KeyError "display_name" = KeyError key.
Proof.
  cbv zeta.
  apply (write_member_data_key_error sample_cog SheetsV4
           [ {[ "username" := VStr "alice" ]} ] [] "Benji"
           (KeyError "display_name")); reflexivity.
Defined.

(** X8. Every cell of the named sheet after a write that succeeds: inside
    the grid it holds the grid's value; outside the grid it is empty in
    columns A to Z and holds what it held before in the columns after Z. *)
Theorem write_member_data_cells (self : Cog) (svc : service)
    (members_data : list (gmap string value)) (all_roles : list string)
    (rows : list (list value)) (sheet_name : string)
    (cs : gmap (nat * nat) value) (w : World) :
  sheets_service self = Some svc →
  data_rows members_data all_roles = Ok rows →
  sheet_cells sheet_name (sheets w) = Some cs →
  ∃ cs' w',
    write_member_data self members_data all_roles sheet_name w
      = (Ok (length members_data), w') ∧
    sheet_cells sheet_name (sheets w') = Some cs' ∧
    ∀ i j, cs' !! (i, j) =
             match rows !! i ≫= (.!! j) with
             | Some v => Some v
             | None => if decide (j ≤ 25)%nat then None else cs !! (i, j)
             end.
Proof.
  intros Hsvc Hrows Hcells.
  destruct (write_member_data_run _ _ _ _ _ _ _ w Hsvc Hrows Hcells)
    as (w' & Hrun & Hcells' & _).
  eexists _, w'. split_and!; [done..|].
  intros i j. apply written_cells_lookup.
Qed.

Lemma write_member_data_cells_witness :
  let w := sample_world (sample_guild true [] []) (Ok [])
             [{| title := "Benji"; sheetId := 0;
                 cells := {[ (0%nat, 30%nat) := VStr "note";
                             (5%nat, 3%nat) := VStr "stale" ]} |}] in
  ∃ rows cs' w',
    data_rows [] [] = Ok rows ∧
    write_member_data sample_cog [] [] "Benji" w = (Ok 0%nat, w') ∧
    sheet_cells "Benji" (sheets w') = Some cs' ∧
    ∀ i j, cs' !! (i, j) =
             match rows !! i ≫= (.!! j) with
             | Some v => Some v
             | None =>
                 if decide (j ≤ 25)%nat then None
                 else ({[ (0%nat, 30%nat) := VStr "note";
                          (5%nat, 3%nat) := VStr "stale" ]}
                         : gmap (nat * nat) value) !! (i, j)
             end.
Proof.
  cbv zeta. eexists.
  destruct (write_member_data_cells sample_cog SheetsV4 [] []
              [VStr <$> base_headers] "Benji"
              {[ (0%nat, 30%nat) := VStr "note"; (5%nat, 3%nat) := VStr "stale" ]}
              (sample_world (sample_guild true [] []) (Ok [])
                 [{| title := "Benji"; sheetId := 0;
                     cells := {[ (0%nat, 30%nat) := VStr "note";
                                 (5%nat, 3%nat) := VStr "stale" ]} |}])
              eq_refl eq_refl eq_refl) as (cs' & w' & Hrun & Hcells & Hcell).
  exists cs', w'. split; [reflexivity|]. split; [exact Hrun|].
  split; [exact Hcells|]. exact Hcell.
Defined.

(** X9. Writing is idempotent: writing the same records with the same
    catalog twice leaves the named sheet with the cells it has after the
    first write, whatever it held before. *)
Theorem write_member_data_idempotent (self : Cog) (svc : service)
    (members_data : list (gmap string value)) (all_roles : list string)
    (rows : list (list value)) (sheet_name : string)
    (cs : gmap (nat * nat) value) (w : World) :
  sheets_service self = Some svc →
  data_rows members_data all_roles = Ok rows →
  sheet_cells sheet_name (sheets w) = Some cs →
  let w1 := (write_member_data self members_data all_roles sheet_name w).2 in
  let w2 := (write_member_data self members_data all_roles sheet_name w1).2 in
  sheet_cells sheet_name (sheets w2) = sheet_cells sheet_name (sheets w1).
Proof.
  intros Hsvc Hrows Hcells. cbv zeta.
  destruct (write_member_data_run _ _ _ _ _ _ _ w Hsvc Hrows Hcells)
    as (w1 & Hrun1 & Hcells1 & _).
  rewrite Hrun1. cbn [snd].
  destruct (write_member_data_run _ _ _ _ _ _ _ w1 Hsvc Hrows Hcells1)
    as (w2 & Hrun2 & Hcells2 & _).
  rewrite Hrun2. cbn [snd]. rewrite Hcells2, Hcells1. f_equal.
  apply map_eq. intros [i j]. rewrite !written_cells_lookup.
  destruct (rows !! i ≫= (.!! j)); [done|]. by case_decide.
Qed.

Lemma write_member_data_idempotent_witness :
  let w := sample_world (sample_guild true [] []) (Ok [])
             [{| title := "Benji"; sheetId := 0;
                 cells := {[ (0%nat, 30%nat) := VStr "note" ]} |}] in
  let w1 := (write_member_data sample_cog [] ["Admin"] "Benji" w).2 in
  let w2 := (write_member_data sample_cog [] ["Admin"] "Benji" w1).2 in
  sheet_cells "Benji" (sheets w2) = sheet_cells "Benji" (sheets w1).
Proof.
  cbv zeta.
  apply (write_member_data_idempotent sample_cog SheetsV4 [] ["Admin"]
           [VStr <$> (base_headers ++ ["Role: Admin"])] "Benji"
           {[ (0%nat, 30%nat) := VStr "note" ]}); reflexivity.
Defined.

(** X10. Within columns A to Z the write is a full replace: on a sheet that
    holds nothing after column Z, a write with a catalog of at most eleven
    roles followed by any other write leaves exactly the cells of the second
    grid. *)
Theorem write_member_data_full_replace (self : Cog) (svc : service)
    (members_data1 members_data2 : list (gmap string value))
    (all_roles1 all_roles2 : list string) (rows1 rows2 : list (list value))
    (sheet_name : string) (cs : gmap (nat * nat) value) (w : World) :
  sheets_service self = Some svc →
  data_rows members_data1 all_roles1 = Ok rows1 →
  data_rows members_data2 all_roles2 = Ok rows2 →
  sheet_cells sheet_name (sheets w) = Some cs →
  (∀ i j, 25 < j → cs !! (i, j) = None)%nat →
  (length all_roles1 ≤ 11)%nat →
  let w1 := (write_member_data self members_data1 all_roles1 sheet_name w).2 in
  let w2 := (write_member_data self members_data2 all_roles2 sheet_name w1).2 in
  sheet_cells sheet_name (sheets w2) = Some (write_rows 0 0 rows2 ∅).
Proof.
  intros Hsvc Hrows1 Hrows2 Hcells Hcs Hroles. cbv zeta.
  destruct (write_member_data_run _ _ _ _ _ _ _ w Hsvc Hrows1 Hcells)
    as (w1 & Hrun1 & Hcells1 & _).
  rewrite Hrun1. cbn [snd].
  destruct (write_member_data_run _ _ _ _ _ _ _ w1 Hsvc Hrows2 Hcells1)
    as (w2 & Hrun2 & Hcells2 & _).
  rewrite Hrun2. cbn [snd]. rewrite Hcells2. f_equal.
  apply map_eq. intros [i j]. rewrite !written_cells_lookup.
  fold (grid_cells rows2). rewrite grid_cells_lookup.
  destruct (rows2 !! i ≫= (.!! j)); [done|]. case_decide; [done|].
  destruct (rows1 !! i) as [vs|] eqn:Hvs; cbn; [|apply Hcs; lia].
  apply (Forall_lookup_1 _ _ _ _ (data_rows_width _ _ _ Hrows1)) in Hvs.
  rewrite (lookup_ge_None_2 vs) by lia. apply Hcs. lia.
Qed.

Lemma write_member_data_full_replace_witness :
  let w := sample_world (sample_guild true [] []) (Ok [])
             [{| title := "Benji"; sheetId := 0;
                 cells := {[ (7%nat, 2%nat) := VStr "stale" ]} |}] in
  let w1 := (write_member_data sample_cog [] ["Admin"; "Member"] "Benji" w).2 in
  let w2 := (write_member_data sample_cog [] [] "Benji" w1).2 in
  sheet_cells "Benji" (sheets w2)
    = Some (write_rows 0 0 [VStr <$> base_headers] ∅).
Proof.
  cbv zeta.
  apply (write_member_data_full_replace sample_cog SheetsV4 [] []
           ["Admin"; "Member"] []
           [VStr <$> (base_headers ++ ["Role: Admin"; "Role: Member"])]
           [VStr <$> base_headers] "Benji"
           {[ (7%nat, 2%nat) := VStr "stale" ]});
    [reflexivity | reflexivity | reflexivity | reflexivity | | cbn; lia].
  intros i j Hj. apply lookup_singleton_ne. intros [= _ <-]. lia.
Defined.

(** ** The orchestrator *)

Lemma bind_run {A B} (c : Py A) (f : A → Py B) (w w1 : World) (a : A) :
  c w = (Ok a, w1) → (c ≫= f) w = f a w1.
Proof. intros Hc. unfold mbind, Py_bind. by rewrite Hc. Qed.

Lemma bind_raise {A B} (c : Py A) (f : A → Py B) (w w1 : World) (e : exn) :
  c w = (Err e, w1) → (c ≫= f) w = (Err e, w1).
Proof. intros Hc. unfold mbind, Py_bind. by rewrite Hc. Qed.

Lemma loaded_guild_with_content (c : content) (w : World) :
  loaded_guild (with_content c w) = loaded_guild w.
Proof. by rewrite !loaded_guild_unfold. Qed.

(** The run of [sync_members] up to the end of the collection, when the
    service and the sheet id are there. *)
Lemma sync_members_collect (self : Cog) (svc : service) (id : string)
    (author sheet_name : string) (w : World) :
  sheets_service self = Some svc → google_sheet_id self = Some id → id ≠ "" →
  let started :=
    with_content (Text "Collecting member data...")
      (with_content (Text "Starting member synchronization...") w) in
  let all_roles := get_all_roles (loaded_guild w) in
  let humans :=
    filter (λ m, Member.bot m = false) (Guild.members (loaded_guild w)) in
  let members_data :=
    imap (λ i m, member_info (reading w i) all_roles m) humans in
  let collected :=
    with_ticks (ticks w + length humans) (with_guild (loaded_guild w) started) in
  sync_members self author sheet_name w =
  try_except
    (match members_data with
     | [] => edit (Text "No human members found to sync (only bots in server?)")
     | _ =>
       edit (Text ("Writing " +:+ pretty (length members_data) +:+
                   " members to " +:+ sheet_name +:+ " sheet..."));;
       member_count ← write_member_data self members_data all_roles sheet_name;
       now ← datetime_now;
       guild ← read_guild;
       edit (Rich {|
         embed_title := "Member Sync Complete";
         embed_color := 65280;
         embed_timestamp := now;
         embed_fields :=
           [("Members Synced", pretty member_count +:+ " members", true);
            ("Role Columns", pretty (length all_roles) +:+ " roles", true);
            ("Sheet", sheet_name, true);
            ("Server", Guild.name guild, true)] ++
           match all_roles with
           | [] => []
           | _ => [("Roles Found",
                    join ", " (take 5 all_roles) +:+
                      (if bool_decide (5 < length all_roles)%nat then "..." else ""),
                    false)]
           end;
         embed_footer := "Synced by " +:+ author |})
     end)
    (λ e, edit (Text ("Sync failed: " +:+ exn_str e)))
    collected.
Proof.
  intros Hsvc Hid Hne. cbv zeta. unfold sync_members. rewrite Hsvc, Hid.
  cbn [default]. rewrite bool_decide_eq_false_2 by done.
  unfold mbind at 1. unfold Py_bind at 1. cbn [send].
  unfold try_except. unfold mbind at 1. unfold Py_bind at 1. cbn [edit].
  unfold mbind at 1. unfold Py_bind at 1.
  pose proof (get_member_data_run (with_content (Text "Collecting member data...")
    (with_content (Text "Starting member synchronization...") w))) as Hrun.
  cbv zeta in Hrun. rewrite !loaded_guild_with_content in Hrun.
  rewrite Hrun. reflexivity.
Qed.



(** X12. A sync that has a member to write and finds the sheet ends on the
    completion report: the sheet holds the projected grid over what the
    clearing of A:Z left, exactly the lookup, the clear and the update were
    requested, and the report counts as members synced the members of the
    loaded guild that are not bots and as role columns the entries of the
    catalog. *)
Theorem sync_members_complete (self : Cog) (svc : service) (id : string)
    (author sheet_name : string) (cs : gmap (nat * nat) value) (w : World) :
  sheets_service self = Some svc → google_sheet_id self = Some id → id ≠ "" →
  (∃ m, m ∈ Guild.members (loaded_guild w) ∧ Member.bot m = false) →
  sheet_cells sheet_name (sheets w) = Some cs →
  let all_roles := get_all_roles (loaded_guild w) in
  let humans :=
    filter (λ m, Member.bot m = false) (Guild.members (loaded_guild w)) in
  ∃ rows embed w',
    sync_members self author sheet_name w = (Ok (), w') ∧
    data_rows (imap (λ i m, member_info (reading w i) all_roles m) humans)
      all_roles = Ok rows ∧
    sheet_cells sheet_name (sheets w') =
      Some (write_rows 0 0 rows (clear_cells (Columns sheet_name "A" "Z") cs)) ∧
    requests w' = requests w ++
      [GetSpreadsheet; ClearValues (Columns sheet_name "A" "Z");
       UpdateValues (Cell sheet_name "A" 1) rows] ∧
    last (channel w') = Some (Rich embed) ∧
    embed_title embed = "Member Sync Complete" ∧
    take 2 (embed_fields embed) =
      [("Members Synced", pretty (length humans) +:+ " members", true);
       ("Role Columns", pretty (length all_roles) +:+ " roles", true)].
Proof.
  intros Hsvc Hid Hne (m & Hm & Hbot) Hcells. cbv zeta.
  rewrite (sync_members_collect _ _ _ _ _ _ Hsvc Hid Hne). cbv zeta.
  set (all_roles := get_all_roles (loaded_guild w)).
  set (humans := filter _ (Guild.members (loaded_guild w))).
  set (members_data := imap _ humans).
  assert (length members_data = length humans) as Hlen
    by apply length_imap.
  destruct (data_rows_ok members_data all_roles) as [rows Hrows].
  { intros member key (i & Hi)%list_elem_of_lookup Hkey.
    apply list_lookup_imap_Some in Hi as (m' & _ & ->).
    by apply member_info_base_keys. }
  assert (humans ≠ []) as Hhumans.
  { intros Hnil. assert (m ∈ humans) as Hin by by apply list_elem_of_filter.
    rewrite Hnil in Hin. by apply elem_of_nil in Hin. }
  destruct members_data as [|record members_data'] eqn:Hdata.
  { destruct humans; [done|discriminate]. }
  rewrite <- Hdata in *. clear Hdata record members_data'.
  match goal with |- context [try_except _ _ ?w0] => set (collected := w0) end.
  set (writing := with_content
    (Text ("Writing " +:+ pretty (length members_data) +:+ " members to " +:+
           sheet_name +:+ " sheet...")) collected).
  destruct (write_member_data_run self svc members_data all_roles rows
              sheet_name cs writing Hsvc Hrows Hcells)
    as (written & Hwrite & Hcells' & Hreq).
  exists rows. eexists _, _. split.
  { unfold try_except.
    rewrite (bind_run _ _ collected writing ()) by reflexivity.
    rewrite (bind_run _ _ _ _ _ Hwrite).
    unfold mbind, Py_bind, datetime_now, read_guild, edit. reflexivity. }
  split; [done|]. world_simpl. split_and!.
  - done.
  - rewrite Hreq. reflexivity.
  - by rewrite last_snoc.
  - done.
  - cbn [embed_fields take app]. by rewrite Hlen.
Qed.

Lemma sync_members_complete_witness :
  let alice := sample_member "alice" 42 [everyone_role] everyone_role false None in
  let w := sample_world (sample_guild true [alice] [everyone_role]) (Ok [])
             [{| title := "Benji"; sheetId := 0; cells := ∅ |}] in
  ∃ rows embed w',
    sync_members sample_cog "admin" "Benji" w = (Ok (), w') ∧
    data_rows
      (imap (λ i m, member_info (reading w i) (get_all_roles (loaded_guild w)) m)
         (filter (λ m, Member.bot m = false) (Guild.members (loaded_guild w))))
      (get_all_roles (loaded_guild w)) = Ok rows ∧
    sheet_cells "Benji" (sheets w') =
      Some (write_rows 0 0 rows (clear_cells (Columns "Benji" "A" "Z") ∅)) ∧
    requests w' = requests w ++
      [GetSpreadsheet; ClearValues (Columns "Benji" "A" "Z");
       UpdateValues (Cell "Benji" "A" 1) rows] ∧
    last (channel w') = Some (Rich embed) ∧
    embed_title embed = "Member Sync Complete" ∧
    take 2 (embed_fields embed) =
      [("Members Synced",
        pretty (length (filter (λ m, Member.bot m = false)
                          (Guild.members (loaded_guild w)))) +:+ " members", true);
       ("Role Columns",
        pretty (length (get_all_roles (loaded_guild w))) +:+ " roles", true)].
Proof.
  cbv zeta.
  apply (sync_members_complete sample_cog SheetsV4 "sheet-id" "admin" "Benji" ∅).
  - reflexivity.
  - reflexivity.
  - discriminate.
  - rewrite loaded_guild_unfold. cbn. eexists. split; [left|reflexivity].
  - reflexivity.
Defined.

(** X13. A sync that has a member to write and does not find the sheet ends
    on the status "Sync failed: Sheet '...' not found": the command returns
    normally, only the lookup of the titles was requested, and the sheets are
    as they were. *)
Theorem sync_members_sheet_missing (self : Cog) (svc : service) (id : string)
    (author sheet_name : string) (w : World) :
  sheets_service self = Some svc → google_sheet_id self = Some id → id ≠ "" →
  (∃ m, m ∈ Guild.members (loaded_guild w) ∧ Member.bot m = false) →
  sheet_name ∉ title <$> sheets w →
  ∃ w', sync_members self author sheet_name w = (Ok (), w') ∧
        last (channel w') =
          Some (Text ("Sync failed: Sheet '" +:+ sheet_name +:+ "' not found")) ∧
        sheets w' = sheets w ∧
        requests w' = requests w ++ [GetSpreadsheet].
Proof.
  intros Hsvc Hid Hne (m & Hm & Hbot) Habsent.
  rewrite (sync_members_collect _ _ _ _ _ _ Hsvc Hid Hne). cbv zeta.
  set (all_roles := get_all_roles (loaded_guild w)).
  set (humans := filter _ (Guild.members (loaded_guild w))).
  set (members_data := imap _ humans).
  destruct (data_rows_ok members_data all_roles) as [rows Hrows].
  { intros member key (i & Hi)%list_elem_of_lookup Hkey.
    apply list_lookup_imap_Some in Hi as (m' & _ & ->).
    by apply member_info_base_keys. }
  assert (humans ≠ []) as Hhumans.
  { intros Hnil. assert (m ∈ humans) as Hin by by apply list_elem_of_filter.
    rewrite Hnil in Hin. by apply elem_of_nil in Hin. }
  destruct members_data as [|record members_data'] eqn:Hdata.
  { destruct humans; [done|discriminate]. }
  rewrite <- Hdata in *. clear Hdata record members_data'.
  match goal with |- context [try_except _ _ ?w0] => set (collected := w0) end.
  set (writing := with_content
    (Text ("Writing " +:+ pretty (length members_data) +:+ " members to " +:+
           sheet_name +:+ " sheet...")) collected).
  assert (write_member_data self members_data all_roles sheet_name writing
          = (Err (ValueError ("Sheet '" +:+ sheet_name +:+ "' not found")),
             with_request GetSpreadsheet writing)) as Hwrite.
  { unfold write_member_data. rewrite Hsvc.
    unfold try_except, mbind, Py_bind, lift_result. rewrite Hrows.
    by rewrite (clear_sheet_absent sheet_name writing). }
  eexists. split.
  { unfold try_except.
    rewrite (bind_run _ _ collected writing ()) by reflexivity.
    rewrite (bind_raise _ _ _ _ _ Hwrite). reflexivity. }
  world_simpl. split_and!; [|done..]. by rewrite last_snoc.
Qed.

Lemma sync_members_sheet_missing_witness :
  let alice := sample_member "alice" 42 [everyone_role] everyone_role false None in
  let w := sample_world (sample_guild true [alice] [everyone_role]) (Ok [])
             [{| title := "Benji"; sheetId := 0; cells := ∅ |}] in
  ∃ w', sync_members sample_cog "admin" "Roster" w = (Ok (), w') ∧
        last (channel w') = Some (Text "Sync failed: Sheet 'Roster' not found") ∧
        sheets w' = sheets w ∧
        requests w' = requests w ++ [GetSpreadsheet].
Proof.
  cbv zeta.
  apply (sync_members_sheet_missing sample_cog SheetsV4 "sheet-id" "admin" "Roster").
  - reflexivity.
  - reflexivity.
  - discriminate.
  - rewrite loaded_guild_unfold. cbn. eexists. split; [left|reflexivity].
  - cbn. rewrite !elem_of_cons, elem_of_nil. intros [|[]]. discriminate.
Defined.

(** ** The informational commands *)

Lemma chunks_concat {A} (l : list A) (size count : nat) :
  concat ((λ k, take size (drop (k * size) l)) <$> seq 0 count) =
  take (count * size) l.
Proof.
  induction count as [|count IH]; [done|].
  rewrite seq_S, fmap_app, concat_app, IH. cbn [fmap list_fmap concat].
  rewrite app_nil_r, take_take_drop. f_equal. lia.
Qed.

Lemma role_chunks_unfold (all_roles : list string) :
  role_chunks all_roles =
  (λ k, take 10 (drop (k * 10) all_roles)) <$>
    seq 0 ((length all_roles + 9) `div` 10)%nat.
Proof.
  unfold role_chunks, py_range. rewrite <- list_fmap_compose.
  replace (length all_roles + 10 - 1)%nat with (length all_roles + 9)%nat by lia.
  apply list_fmap_ext. intros _ k _. unfold compose, slice. f_equal. lia.
Qed.

Lemma role_chunks_lookup (all_roles : list string) (i : nat) (chunk : list string) :
  role_chunks all_roles !! i = Some chunk ↔
  (i * 10 < length all_roles)%nat ∧ chunk = take 10 (drop (i * 10) all_roles).
Proof.
  rewrite role_chunks_unfold, list_lookup_fmap, fmap_Some.
  setoid_rewrite lookup_seq.
  pose proof (Nat.div_mod_eq (length all_roles + 9) 10) as Hdiv.
  pose proof (Nat.mod_upper_bound (length all_roles + 9) 10) as Hmod.
  split.
  - intros (k & [-> Hlt] & ->). split; [lia|done].
  - intros [Hlt ->]. exists i. split; [|done]. split; [done|]. lia.
Qed.

(** X14. [list_roles] answers a guild without custom roles with one text,
    and any other guild with one embed whose fields cut the catalog into
    consecutive chunks of at most ten entries: the chunks put end to end are
    the catalog, none is empty, and the field of index i is labelled
    "Roles 10i+1-b" where b - 10i is the number of entries it lists. The
    guild and the spreadsheet are left as they were. *)
Theorem list_roles_chunks (w : World) :
  let all_roles := get_all_roles (guild w) in
  let chunks := role_chunks all_roles in
  (list_roles w =
     (Ok match all_roles with
         | [] => [Plain "No roles found in this server (excluding @everyone)"]
         | _ =>
           [Card {|
              card_title := "Server Roles for Sheet Columns";
              card_description :=
                Some ("Found " +:+ pretty (length all_roles) +:+
                      " roles that will be created as individual columns:");
              card_color := 39423;
              card_timestamp := None;
              card_fields := imap (role_field all_roles) chunks;
              card_thumbnail := None;
              card_footer :=
                Some "Each role will have its own column with 'Yes' or 'No' values"
            |}]
         end, w)) ∧
  concat chunks = all_roles ∧
  length chunks = ((length all_roles + 9) `div` 10)%nat ∧
  ∀ i chunk, chunks !! i = Some chunk →
    (1 ≤ length chunk ≤ 10)%nat ∧
    (length chunk = (((i + 1) * 10) `min` length all_roles) - i * 10)%nat ∧
    (role_field all_roles i chunk).1.1 =
      "Roles " +:+ pretty (i * 10 + 1)%nat +:+ "-" +:+
      pretty (i * 10 + length chunk)%nat.
Proof.
  cbv zeta. split_and!.
  - unfold list_roles, mbind, Py_bind, read_guild.
    by destruct (get_all_roles (guild w)).
  - rewrite role_chunks_unfold, chunks_concat. apply take_ge.
    pose proof (Nat.div_mod_eq (length (get_all_roles (guild w)) + 9) 10).
    pose proof (Nat.mod_upper_bound (length (get_all_roles (guild w)) + 9) 10).
    lia.
  - by rewrite role_chunks_unfold, length_fmap, length_seq.
  - intros i chunk [Hlt ->]%role_chunks_lookup.
    assert (length (take 10 (drop (i * 10) (get_all_roles (guild w))))
            = ((((i + 1) * 10) `min` length (get_all_roles (guild w))) - i * 10)%nat)
      as Hlen by (rewrite length_take, length_drop; lia).
    split_and!; [lia..|done|].
    unfold role_field. cbn [fst]. do 4 f_equal. lia.
Qed.

Lemma filter_bots_humans (members : list Member.t) :
  (length (filter (λ m, Member.bot m = true) members) +
   length (filter (λ m, Member.bot m = false) members) = length members)%nat.
Proof.
  induction members as [|m rest IH]; [done|]. rewrite !filter_cons.
  destruct (Member.bot m); repeat case_decide; try done; cbn; lia.
Qed.

Lemma filter_online_humans (members : list Member.t) :
  (length (filter (λ m, Member.status m ≠ Status.offline ∧ Member.bot m = false)
             members)
   ≤ length (filter (λ m, Member.bot m = false) members))%nat.
Proof.
  induction members as [|m rest IH]; [done|]. rewrite !filter_cons.
  repeat case_decide; cbn; try lia. tauto.
Qed.

Lemma member_count_run (icon : option string) (w : World) :
  let loaded := loaded_guild w in
  let total_members := length (Guild.members loaded) in
  let bot_count := length (filter (λ m, Member.bot m = true) (Guild.members loaded)) in
  member_count icon w =
  (Ok ((if Guild.chunked (guild w) then []
        else match gateway w with
             | Ok _ => [Plain "Fetching all members..."]
             | Err e => [Plain "Fetching all members...";
                         Plain ("Could not fetch all members: " +:+ exn_str e)]
             end) ++
       [Card {|
          card_title := "Server Member Statistics";
          card_description := None;
          card_color := 39423;
          card_timestamp := Some (reading w 0);
          card_fields :=
            [("Total Members", pretty total_members, true);
             ("Human Members", pretty (total_members - bot_count)%nat, true);
             ("Online Now",
              pretty (length (filter (λ m, Member.status m ≠ Status.offline ∧
                                           Member.bot m = false)
                                (Guild.members loaded))), true);
             ("Bots", pretty bot_count, true);
             ("Guild Chunked", if Guild.chunked loaded then "Yes" else "No", true)];
          card_thumbnail := icon;
          card_footer := None |}]),
   with_ticks (S (ticks w)) (with_guild loaded w)).
Proof.
  cbv zeta. rewrite loaded_guild_unfold.
  unfold member_count, mbind, Py_bind, read_guild, try_except, guild_chunk,
    datetime_now, mret, Py_ret, reading.
  destruct (Guild.chunked (guild w)) eqn:Hchunked.
  - cbn. rewrite Hchunked, Nat.add_0_r. reflexivity.
  - destruct (gateway w) as [answer|e]; cbn.
    + rewrite Nat.add_0_r. reflexivity.
    + rewrite Hchunked, Nat.add_0_r. reflexivity.
Qed.

(** X15. [member_count] always answers with the statistics of the loaded
    guild, also when the chunk request fails, which it reports and passes
    over: the members shown as human are those that are not bots, so that
    humans and bots add up to the total, the members shown as online are at
    most the humans, and the number shown as human is the number of records
    that a sync collects in the same state. "Guild Chunked" reads "No"
    exactly when the guild was not chunked and the request failed. *)
Theorem member_count_statistics (icon : option string) (w : World) :
  let members := Guild.members (loaded_guild w) in
  let humans := length (filter (λ m, Member.bot m = false) members) in
  let bots := length (filter (λ m, Member.bot m = true) members) in
  let online :=
    length (filter (λ m, Member.status m ≠ Status.offline ∧ Member.bot m = false)
              members) in
  ∃ notices stats w',
    member_count icon w = (Ok (notices ++ [Card stats]), w') ∧
    guild w' = loaded_guild w ∧ sheets w' = sheets w ∧ requests w' = requests w ∧
    card_fields stats =
      [("Total Members", pretty (length members), true);
       ("Human Members", pretty humans, true);
       ("Online Now", pretty online, true);
       ("Bots", pretty bots, true);
       ("Guild Chunked",
        if Guild.chunked (loaded_guild w) then "Yes" else "No", true)] ∧
    (humans + bots = length members)%nat ∧ (online ≤ humans)%nat ∧
    (∃ members_data all_roles w'',
       get_member_data w = (Ok (members_data, all_roles), w'') ∧
       length members_data = humans) ∧
    (Guild.chunked (loaded_guild w) = false ↔
     Guild.chunked (guild w) = false ∧ ∃ e, gateway w = Err e).
Proof.
  cbv zeta.
  pose proof (filter_bots_humans (Guild.members (loaded_guild w))) as Hsplit.
  pose proof (filter_online_humans (Guild.members (loaded_guild w))) as Honline.
  eexists _, _, _. split; [apply member_count_run|].
  world_simpl. split_and!; try done.
  - cbn [card_fields]. do 2 f_equal. do 3 f_equal. lia.
  - lia.
  - pose proof (get_member_data_run w) as Hrun. cbv zeta in Hrun.
    eexists _, _, _. split; [exact Hrun|]. apply length_imap.
  - rewrite loaded_guild_unfold.
    destruct (Guild.chunked (guild w)) eqn:Hchunked.
    + split; [congruence|]. by intros [].
    + destruct (gateway w) as [loaded|e]; cbn.
      * split; [done|]. by intros [_ []].
      * rewrite Hchunked. split; eauto.
Qed.

(** X16. [debug_members] gives up when the chunk request fails: it sends
    the two notices and no report, and the world is as it was. When the guild
    is chunked already or the request is answered, it ends on a report over
    the loaded guild that lists at most ten members, announces the others
    when there are more than ten, counts all members, and reads "Yes" for
    "Guild Chunked". *)
Theorem debug_members_report (members_intent : bool) (w : World) :
  (∀ e, Guild.chunked (guild w) = false → gateway w = Err e →
     debug_members members_intent w =
       (Ok [Plain "Attempting to fetch all members...";
            Plain ("Failed to fetch all members: " +:+ exn_str e)], w)) ∧
  (Guild.chunked (guild w) = true ∨ (∃ answer, gateway w = Ok answer) →
     let members := Guild.members (loaded_guild w) in
     ∃ notices report w',
       debug_members members_intent w = (Ok (notices ++ [Card report]), w') ∧
       guild w' = loaded_guild w ∧
       sheets w' = sheets w ∧ requests w' = requests w ∧
       card_fields report =
         [("Total Members", pretty (length members), true);
          ("Guild Chunked", "Yes", true);
          ("Bot Permissions",
           if members_intent then "Members Intent: Enabled"
           else "Members Intent: Disabled", true)] ∧
       length (members_info members) = (10 `min` length members)%nat ∧
       card_description report =
         Some (if bool_decide (10 < length members)%nat
               then join NL (members_info members) +:+ NL +:+ "... and " +:+
                    pretty (length members - 10)%nat +:+ " more members"
               else join NL (members_info members))).
Proof.
  split.
  - intros e Hchunked Hgateway.
    unfold debug_members, mbind, Py_bind, read_guild, try_except, guild_chunk.
    by rewrite Hchunked, Hgateway.
  - intros Hloaded. cbv zeta. rewrite loaded_guild_unfold.
    unfold debug_members, mbind, Py_bind, read_guild, try_except, guild_chunk,
      mret, Py_ret.
    destruct (Guild.chunked (guild w)) eqn:Hchunked.
    + eexists _, _, _. split; [reflexivity|]. cbn -[Nat.min]. rewrite Hchunked.
      split_and!; try done.
      unfold members_info. by rewrite length_imap, length_take.
    + destruct Hloaded as [|[answer Hanswer]]; [done|]. rewrite Hanswer.
      eexists _, _, _. split; [reflexivity|]. cbn -[Nat.min].
      split_and!; try done.
      unfold members_info. by rewrite length_imap, length_take.
Qed.

Lemma debug_members_report_witness :
  let alice := sample_member "alice" 42 [everyone_role] everyone_role false None in
  let failing := sample_world (sample_guild false [alice] [everyone_role])
                   (Err (Exception "no members intent")) [] in
  let answering := sample_world (sample_guild false [] [everyone_role])
                     (Ok [alice]) [] in
  debug_members true failing =
    (Ok [Plain "Attempting to fetch all members...";
         Plain "Failed to fetch all members: no members intent"], failing) ∧
  ∃ notices report w',
    debug_members true answering = (Ok (notices ++ [Card report]), w') ∧
    guild w' = loaded_guild answering ∧
    sheets w' = sheets answering ∧ requests w' = requests answering ∧
    card_fields report =
      [("Total Members",
        pretty (length (Guild.members (loaded_guild answering))), true);
       ("Guild Chunked", "Yes", true);
       ("Bot Permissions", "Members Intent: Enabled", true)] ∧
    length (members_info (Guild.members (loaded_guild answering)))
      = (10 `min` length (Guild.members (loaded_guild answering)))%nat ∧
    card_description report =
      Some (if bool_decide
                 (10 < length (Guild.members (loaded_guild answering)))%nat
            then join NL (members_info (Guild.members (loaded_guild answering)))
                 +:+ NL +:+ "... and " +:+
                 pretty (length (Guild.members (loaded_guild answering)) - 10)%nat
                 +:+ " more members"
            else join NL (members_info (Guild.members (loaded_guild answering)))).
Proof.
  cbv zeta. split.
  - apply (proj1 (debug_members_report true _) (Exception "no members intent"));
      reflexivity.
  - apply (proj2 (debug_members_report true _)). right. by eexists.
Defined.
